(** * ML-From-Scratch: multilayer perceptron and gradient boosting regressor

    A shallow embedding of
      - mlfromscratch/supervised_learning/multilayer_perceptron.py
      - supervised_learning/gradient_boosting_regressor.py
    Python floats are modelled by the rationals [Q]; objects mutated in place
    are threaded through a state-and-exception monad, so that the state an
    exception leaves behind is part of the model. *)

From Stdlib Require Import List ZArith QArith Qround Lia Bool Arith Permutation.
Import ListNotations.

Set Implicit Arguments.
Open Scope nat_scope.

(** ** Python exceptions and results *)

Inductive exn : Type :=
| ValueError | TypeError | AttributeError | ZeroDivisionError | IndexError | AxisError.

Inductive result (A : Type) : Type :=
| Ok (a : A)
| Raise (e : exn).

Arguments Ok {A} a.
Arguments Raise {A} e.

Definition rbind {A B : Type} (r : result A) (k : A -> result B) : result B :=
  match r with
  | Ok a => k a
  | Raise e => Raise e
  end.

Notation "'let?' x ':=' r 'in' k" := (rbind r (fun x => k))
  (at level 10, x name, r at level 100, k at level 200).

(** [sequence] turns a list of outcomes into the outcome of the list: the
    first exception wins, as in a Python loop or comprehension. *)
Fixpoint sequence {A : Type} (rs : list (result A)) : result (list A) :=
  match rs with
  | [] => Ok []
  | r :: rs' => let? a := r in let? l := sequence rs' in Ok (a :: l)
  end.

(** ** Mutable objects: a state monad that keeps the state on an exception *)

Definition M (St A : Type) : Type := St -> result A * St.

Definition ret {St A : Type} (a : A) : M St A := fun s => (Ok a, s).

Definition bind {St A B : Type} (m : M St A) (k : A -> M St B) : M St B :=
  fun s => match m s with
           | (Ok a, s') => k a s'
           | (Raise e, s') => (Raise e, s')
           end.

Definition raise {St A : Type} (e : exn) : M St A := fun s => (Raise e, s).
Definition get {St : Type} : M St St := fun s => (Ok s, s).
Definition put {St : Type} (s : St) : M St unit := fun _ => (Ok tt, s).
Definition modify {St : Type} (f : St -> St) : M St unit := fun s => (Ok tt, f s).
Definition lift {St A : Type} (r : result A) : M St A := fun s => (r, s).

(** [m] keeps [Inv]: whatever [m] returns or raises, the state it leaves
    satisfies [Inv] if the state it started from did. *)
Definition keeps {St A : Type} (Inv : St -> Prop) (m : M St A) : Prop :=
  forall s, Inv s -> Inv (snd (m s)).

(** Reading an attribute that holds [None] where an array is expected. *)
Definition attr {St A : Type} (e : exn) (o : option A) : M St A :=
  match o with
  | Some a => ret a
  | None => raise e
  end.

Notation "x <- m ;; k" := (bind m (fun x => k))
  (at level 100, m at next level, right associativity).
Notation "' pat <- m ;; k" := (bind m (fun x => match x with pat => k end))
  (at level 100, pat pattern, m at next level, right associativity).
Notation "m ;;; k" := (bind m (fun _ => k))
  (at level 100, right associativity).

(** ** The part of numpy the two files use *)

Module np.

Definition vector := list Q.
Definition matrix := list (list Q).

(** A 0-d array (what [np.empty([])] builds) or a 2-d array given by its
    rows.  The shape of a 2-d array is read off its rows, so the column count
    of an array without rows is not represented. *)
Inductive ndarray : Type :=
| Arr0 (x : Q)
| Arr2 (m : matrix).

Definition zeros (n : nat) : vector := repeat 0%Q n.
Definition arange (n : nat) : list nat := seq 0 n.

Fixpoint zip_with {A B C : Type} (f : A -> B -> C) (u : list A) (v : list B) : list C :=
  match u, v with
  | a :: u', b :: v' => f a b :: zip_with f u' v'
  | _, _ => []
  end.

Definition sum (v : vector) : Q := fold_left Qplus v 0%Q.

Definition column (j : nat) (m : matrix) : vector := map (fun row => nth j row 0%Q) m.

Definition T (m : matrix) : matrix :=
  match m with
  | [] => []
  | r :: _ => map (fun j => column j m) (seq 0 (length r))
  end.

Definition T_nd (a : ndarray) : ndarray :=
  match a with
  | Arr0 x => Arr0 x
  | Arr2 m => Arr2 (T m)
  end.

Definition inner (u v : vector) : Q := sum (zip_with Qmult u v).

Definition matmul (a b : matrix) : matrix :=
  map (fun row => map (inner row) (T b)) a.

(** [a.dot(b)]: a 0-d left operand scales [b]; two 2-d operands need the
    inner dimensions to agree. *)
Definition dot (a : ndarray) (b : matrix) : result matrix :=
  match a with
  | Arr0 s => Ok (map (map (Qmult s)) b)
  | Arr2 m =>
      if forallb (fun row => length row =? length b) m
      then Ok (matmul m b)
      else Raise ValueError
  end.

(** Broadcasting of a binary elementwise operation along one axis. *)
Definition broadcast {A : Type} (zip : A -> A -> result A) (d : A)
    (u v : list A) : result (list A) :=
  if length u =? length v then sequence (zip_with zip u v)
  else if length u =? 1 then sequence (map (zip (hd d u)) v)
  else if length v =? 1 then sequence (map (fun x => zip x (hd d v)) u)
  else Raise ValueError.

Definition elementwise (f : Q -> Q -> Q) (a b : matrix) : result matrix :=
  broadcast (broadcast (fun x y => Ok (f x y)) 0%Q) [] a b.

Definition elementwise_nd (f : Q -> Q -> Q) (a b : ndarray) : result ndarray :=
  match a, b with
  | Arr0 x, Arr0 y => Ok (Arr0 (f x y))
  | Arr0 x, Arr2 n => Ok (Arr2 (map (map (f x)) n))
  | Arr2 m, Arr0 y => Ok (Arr2 (map (map (fun v => f v y)) m))
  | Arr2 m, Arr2 n => let? r := elementwise f m n in Ok (Arr2 r)
  end.

(** [a * b] where [b] is known to be 2-d: the product is 2-d. *)
Definition multiply (a : ndarray) (b : matrix) : result matrix :=
  match a with
  | Arr0 x => Ok (map (map (Qmult x)) b)
  | Arr2 m => elementwise Qmult m b
  end.

(** [a * c] for a Python float [c]. *)
Definition scale (a : ndarray) (c : Q) : ndarray :=
  match a with
  | Arr0 x => Arr0 (x * c)%Q
  | Arr2 m => Arr2 (map (map (fun x => (x * c)%Q)) m)
  end.

(** [np.sum(a, axis=0, keepdims=True)] *)
Definition sum_axis0 (m : matrix) : matrix := [map sum (T m)].

Definition nonzero (x : Q) : bool := negb (Qeq_bool x 0%Q).

(** [a.any()] *)
Definition any (a : ndarray) : bool :=
  match a with
  | Arr0 x => nonzero x
  | Arr2 m => existsb (existsb nonzero) m
  end.

(** [np.mean(a)].  numpy answers nan for an array without elements; the
    rationals answer 0 there, since [x / 0 = 0] in [Q]. *)
Definition mean (a : ndarray) : Q :=
  match a with
  | Arr0 x => x
  | Arr2 m => (sum (concat m) / inject_Z (Z.of_nat (length (concat m))))%Q
  end.

(** Index of the first maximum of a row. *)
Fixpoint argmax_from (i best : nat) (bv : Q) (v : vector) : nat :=
  match v with
  | [] => best
  | x :: v' =>
      if Qle_bool x bv then argmax_from (S i) best bv v'
      else argmax_from (S i) i x v'
  end.

Definition argmax_row (v : vector) : result nat :=
  match v with
  | [] => Raise ValueError
  | x :: v' => Ok (argmax_from 1 0 x v')
  end.

(** [np.argmax(a, axis=1)] *)
Definition argmax_axis1 (a : ndarray) : result (list nat) :=
  match a with
  | Arr0 _ => Raise AxisError
  | Arr2 m => sequence (map argmax_row m)
  end.

(** [a[idx]] for an index array [idx]: the selected rows, in order. *)
Definition take {A : Type} (a : list A) (idx : list nat) : result (list A) :=
  sequence (map (fun i => match nth_error a i with
                          | Some row => Ok row
                          | None => Raise IndexError
                          end) idx).

(** [a -= b] on 1-d arrays: [b] must broadcast to the shape of [a]. *)
Definition isub (a b : vector) : result vector :=
  if length b =? length a then Ok (zip_with Qminus a b)
  else if length b =? 1 then Ok (map (fun x => (x - hd 0 b)%Q) a)
  else Raise ValueError.

(** Consecutive pieces of [a] of the given sizes. *)
Fixpoint split_sizes {A : Type} (a : list A) (sizes : list nat) : list (list A) :=
  match sizes with
  | [] => []
  | s :: sizes' => firstn s a :: split_sizes (skipn s a) sizes'
  end.

(** [np.array_split(a, n_sections)] for an integer section count: the first
    [len(a) mod n] sections get one element more than the others. *)
Definition array_split {A : Type} (a : list A) (Nsections : Z) : result (list (list A)) :=
  if (Nsections <=? 0)%Z then Raise ValueError
  else
    let n := Z.to_nat Nsections in
    let Neach_section := length a / n in
    let extras := length a mod n in
    Ok (split_sizes a (repeat (S Neach_section) extras ++ repeat Neach_section (n - extras))).

End np.

(** ** Collaborators outside the two files

    The random generator behind [np.random], [math.sqrt], the one-hot encoder
    [categorical_to_binary] of [mlfromscratch.utils.data_manipulation] and the
    optimizers of [mlfromscratch.utils.optimizers] are taken as parameters.
    An optimizer object carries its own state (momentum, moving averages), so
    [update] also returns the optimizer as the call leaves it.  Two facts
    about them are assumed: [np.random.shuffle] permutes its argument, and
    the one-hot encoding has one row for each label. *)

Class Collaborators : Type := {
  rng : Type;
  uniform : rng -> Q * rng;
  shuffle : rng -> list nat -> list nat * rng;
  sqrt : Q -> Q;
  categorical_to_binary : list Z -> np.matrix;
  Optimizer : Type;
  update : Optimizer -> np.matrix -> np.matrix -> np.matrix * Optimizer;
  shuffle_permutes : forall g idx, Permutation (fst (shuffle g idx)) idx;
  categorical_to_binary_rows : forall y, length (categorical_to_binary y) = length y
}.

(** An activation strategy: [function] and [gradient], both elementwise. *)
Record Activation : Type := {
  function : np.matrix -> np.matrix;
  gradient : np.matrix -> np.matrix
}.

(** A loss strategy: [loss] and [gradient] over [(y_true, y_pred)]; both
    combine two arrays elementwise and raise when the shapes do not match. *)
Record Loss : Type := {
  loss : np.ndarray -> np.ndarray -> result np.ndarray;
  loss_gradient : np.ndarray -> np.ndarray -> result np.ndarray
}.

Module random.
Section Random.
Context {C : Collaborators}.

(** [n] draws, in order. *)
Fixpoint draws (n : nat) (g : rng) : np.vector * rng :=
  match n with
  | O => ([], g)
  | S n' =>
      let (x, g1) := uniform g in
      let (v, g2) := draws n' g1 in
      (x :: v, g2)
  end.

(** [np.random.random((rows, cols))] *)
Fixpoint random (rows cols : nat) (g : rng) : np.matrix * rng :=
  match rows with
  | O => ([], g)
  | S rows' =>
      let (r, g1) := draws cols g in
      let (m, g2) := random rows' cols g1 in
      (r :: m, g2)
  end.

(** [np.random.uniform(size=X.shape)], one draw per element of [X]. *)
Fixpoint uniform_like_rows (m : np.matrix) (g : rng) : np.matrix * rng :=
  match m with
  | [] => ([], g)
  | row :: m' =>
      let (r, g1) := draws (length row) g in
      let (u, g2) := uniform_like_rows m' g1 in
      (r :: u, g2)
  end.

Definition uniform_like (X : np.ndarray) (g : rng) : np.ndarray * rng :=
  match X with
  | np.Arr0 _ => let (x, g1) := uniform g in (np.Arr0 x, g1)
  | np.Arr2 m => let (u, g1) := uniform_like_rows m g in (np.Arr2 u, g1)
  end.

End Random.
End random.

(** ** multilayer_perceptron.py *)

Module DenseLayer.
Section DenseLayer.
Context {C : Collaborators}.

(** The attributes of a [DenseLayer] object.  [W_opt] and [wb_opt] do not
    exist before [initialize] runs: [None] stands for the missing attribute. *)
Record t : Type := mk {
  activation : Activation;
  layer_input : option np.ndarray;
  initialized : bool;
  n_inputs : Z;
  n_units : Z;
  W : option np.matrix;
  wb : option np.matrix;
  W_opt : option Optimizer;
  wb_opt : option Optimizer
}.

Definition set_layer_input (self : t) (v : option np.ndarray) : t :=
  mk (activation self) v (initialized self) (n_inputs self) (n_units self)
     (W self) (wb self) (W_opt self) (wb_opt self).

Definition set_W (self : t) (v : option np.matrix) : t :=
  mk (activation self) (layer_input self) (initialized self) (n_inputs self) (n_units self)
     v (wb self) (W_opt self) (wb_opt self).

Definition set_wb (self : t) (v : option np.matrix) : t :=
  mk (activation self) (layer_input self) (initialized self) (n_inputs self) (n_units self)
     (W self) v (W_opt self) (wb_opt self).

Definition set_W_opt (self : t) (v : option Optimizer) : t :=
  mk (activation self) (layer_input self) (initialized self) (n_inputs self) (n_units self)
     (W self) (wb self) v (wb_opt self).

Definition set_wb_opt (self : t) (v : option Optimizer) : t :=
  mk (activation self) (layer_input self) (initialized self) (n_inputs self) (n_units self)
     (W self) (wb self) (W_opt self) v.

Definition __init__ (n_inputs n_units : Z) (activation_function : Activation) : result t :=
  Ok (mk activation_function None false n_inputs n_units None None None None).

(** [initialize]: both parameters drawn in [[-1/sqrt n_inputs, 1/sqrt n_inputs]],
    one copy of the optimizer for each.  [math.sqrt] raises [ValueError] on
    a negative [n_inputs]; dividing by a zero root raises
    [ZeroDivisionError]; [np.random.random] raises [ValueError] on a
    negative dimension.  Each of these comes before the first assignment and
    the first draw. *)
Definition initialize (optimizer : Optimizer) : M (t * rng) unit :=
  fun '(self, g) =>
    if (n_inputs self <? 0)%Z then (Raise ValueError, (self, g))
    else
      let root := sqrt (inject_Z (n_inputs self)) in
      if Qeq_bool root 0 then (Raise ZeroDivisionError, (self, g))
      else if (n_units self <? 0)%Z then (Raise ValueError, (self, g))
      else
        let a := (- (1) / root)%Q in
        let b := (1 / root)%Q in
        let spread := map (map (fun x => ((b - a) * x + a)%Q)) in
        let (r1, g1) :=
          random.random (Z.to_nat (n_inputs self)) (Z.to_nat (n_units self)) g in
        let self := set_W self (Some (spread r1)) in
        let (r2, g2) := random.random 1 (Z.to_nat (n_units self)) g1 in
        let self := set_wb self (Some (spread r2)) in
        let self := set_W_opt self (Some optimizer) in
        let self := set_wb_opt self (Some optimizer) in
        (Ok tt, (self, g2)).

(** [layer_input.dot(self.W) + self.wb] *)
Definition pre_activation (self : t) (layer_input : np.ndarray) : result np.matrix :=
  match W self with
  | None => Raise TypeError
  | Some self_W =>
      let? z := np.dot layer_input self_W in
      match wb self with
      | None => Raise TypeError
      | Some self_wb => np.elementwise Qplus z self_wb
      end
  end.

Definition forward_pass (layer_input : np.ndarray) (training : bool) : M t np.matrix :=
  modify (fun self => set_layer_input self (Some layer_input)) ;;;
  self <- get ;;
  s <- lift (pre_activation self layer_input) ;;
  ret (function (activation self) s).

(** The accumulated gradient at the layer:
    [acc_grad * self.activation.gradient(self.layer_input.dot(self.W) + self.wb)] *)
Definition layer_grad (self : t) (acc_grad : np.ndarray) : result np.matrix :=
  match layer_input self with
  | None => Raise AttributeError
  | Some x =>
      let? s := pre_activation self x in
      np.multiply acc_grad (gradient (activation self) s)
  end.

(** [grad_w = self.layer_input.T.dot(layer_grad)] *)
Definition grad_w (self : t) (layer_grad : np.matrix) : result np.matrix :=
  match layer_input self with
  | None => Raise AttributeError
  | Some x => np.dot (np.T_nd x) layer_grad
  end.

(** [grad_wb = np.sum(layer_grad, axis=0, keepdims=True)] *)
Definition grad_wb (layer_grad : np.matrix) : np.matrix := np.sum_axis0 layer_grad.

(** [self.W = self.W_opt.update(self.W, grad_w)] *)
Definition update_W (grad : np.matrix) : M t unit :=
  self <- get ;;
  opt <- attr AttributeError (W_opt self) ;;
  self_W <- attr TypeError (W self) ;;
  let (new_W, opt') := update opt self_W grad in
  put (set_W (set_W_opt self (Some opt')) (Some new_W)).

(** [self.wb = self.wb_opt.update(self.wb, grad_wb)] *)
Definition update_wb (grad : np.matrix) : M t unit :=
  self <- get ;;
  opt <- attr AttributeError (wb_opt self) ;;
  self_wb <- attr TypeError (wb self) ;;
  let (new_wb, opt') := update opt self_wb grad in
  put (set_wb (set_wb_opt self (Some opt')) (Some new_wb)).

Definition backward_pass (acc_grad : np.ndarray) : M t np.matrix :=
  self <- get ;;
  layer_grad <- lift (layer_grad self acc_grad) ;;
  grad_w <- lift (grad_w self layer_grad) ;;
  let grad_wb := grad_wb layer_grad in
  update_W grad_w ;;;
  update_wb grad_wb ;;;
  self <- get ;;
  self_W <- attr TypeError (W self) ;;
  lift (np.dot (np.Arr2 layer_grad) (np.T self_W)).

End DenseLayer.
End DenseLayer.

Module DropoutLayer.
Section DropoutLayer.
Context {C : Collaborators}.

(** [_mask] is a boolean array in the source; it only ever multiplies a
    numeric array, so it is kept as an array of 1 ([True]) and 0 ([False]). *)
Record t : Type := mk {
  p : Q;
  _mask : option np.ndarray
}.

Definition __init__ (p : Q) : result t := Ok (mk p None).

(** [u > p], elementwise *)
Definition greater (u : np.ndarray) (p : Q) : np.ndarray :=
  let gt x := if Qle_bool x p then 0%Q else 1%Q in
  match u with
  | np.Arr0 x => np.Arr0 (gt x)
  | np.Arr2 m => np.Arr2 (map (map gt) m)
  end.

Definition forward_pass (X : np.ndarray) (training : bool) : M (t * rng) np.ndarray :=
  fun '(self, g) =>
    let c := (1 - p self)%Q in
    if training then
      let (u, g1) := random.uniform_like X g in
      let mask := greater u (p self) in
      (np.elementwise_nd Qmult X mask, (mk (p self) (Some mask), g1))
    else (Ok (np.scale X c), (self, g)).

Definition backward_pass (acc_grad : np.ndarray) : M t np.ndarray :=
  self <- get ;;
  mask <- attr TypeError (_mask self) ;;
  lift (np.elementwise_nd Qmult acc_grad mask).

End DropoutLayer.
End DropoutLayer.

Module MultilayerPerceptron.
Section MultilayerPerceptron.
Context {C : Collaborators}.

(** The objects a network holds in [self.layers]: anything with
    [forward_pass] and [backward_pass]; the file defines two such classes. *)
Inductive Layer : Type :=
| Dense (l : DenseLayer.t)
| Dropout (l : DropoutLayer.t).

Definition forward_pass (layer_output : np.ndarray) (training : bool)
  : M (Layer * rng) np.ndarray :=
  fun '(layer, g) =>
    match layer with
    | Dense l =>
        let (r, l') := DenseLayer.forward_pass layer_output training l in
        (let? out := r in Ok (np.Arr2 out), (Dense l', g))
    | Dropout l =>
        let '(r, (l', g')) := DropoutLayer.forward_pass layer_output training (l, g) in
        (r, (Dropout l', g'))
    end.

Definition backward_pass (acc_grad : np.ndarray) : M Layer np.ndarray :=
  fun layer =>
    match layer with
    | Dense l =>
        let (r, l') := DenseLayer.backward_pass acc_grad l in
        (let? out := r in Ok (np.Arr2 out), Dense l')
    | Dropout l =>
        let (r, l') := DropoutLayer.backward_pass acc_grad l in
        (r, Dropout l')
    end.

(** The learnable parameters of a layer and their optimizers; a Dropout
    layer has none. *)
Definition parameters (layer : Layer)
  : option (option np.matrix * option np.matrix * option Optimizer * option Optimizer) :=
  match layer with
  | Dense l => Some (DenseLayer.W l, DenseLayer.wb l, DenseLayer.W_opt l, DenseLayer.wb_opt l)
  | Dropout _ => None
  end.

(** What [add] fixes for good: the kind of a layer, a Dense layer's
    activation, sizes and [initialized] flag, a Dropout layer's [p]. *)
Definition architecture (layer : Layer) : Activation * Z * Z * bool + Q :=
  match layer with
  | Dense l => inl (DenseLayer.activation l, DenseLayer.n_inputs l,
                    DenseLayer.n_units l, DenseLayer.initialized l)
  | Dropout l => inr (DropoutLayer.p l)
  end.

(** A layer as it is apart from the input a Dense layer caches. *)
Definition without_cache (layer : Layer) : Layer :=
  match layer with
  | Dense l => Dense (DenseLayer.set_layer_input l None)
  | Dropout l => Dropout l
  end.

(** [self.errors = {"training": [], "validation": []}] *)
Record Errors : Type := mk_errors {
  training : list Q;
  validation : list Q
}.

Record t : Type := mk {
  n_iterations : Z;
  optimizer : Optimizer;
  layers : list Layer;
  errors : Errors;
  cross_ent : Loss;
  batch_size : Z;
  X_val : np.ndarray;
  y_val : np.ndarray
}.

(** What the validation branch of [fit] reads and writes: the stored
    validation inputs and the validation losses recorded so far. *)
Definition validation_state (X_val0 : np.ndarray) (recorded : list Q) (s : t * rng) : Prop :=
  X_val (fst s) = X_val0 /\ validation (errors (fst s)) = recorded.

Definition set_layers (self : t) (v : list Layer) : t :=
  mk (n_iterations self) (optimizer self) v (errors self) (cross_ent self)
     (batch_size self) (X_val self) (y_val self).

Definition set_errors (self : t) (v : Errors) : t :=
  mk (n_iterations self) (optimizer self) (layers self) v (cross_ent self)
     (batch_size self) (X_val self) (y_val self).

(** What training is not meant to change: the settings of [__init__] and
    the architecture of the layers, in order. *)
Definition configuration (self : t) :=
  (n_iterations self, optimizer self, map architecture (layers self), cross_ent self,
   batch_size self, X_val self, y_val self).

(** [np.empty([])] allocates a 0-d array and does not write to it: its one
    element is whatever the memory held, passed here as [uninitialized]. *)
Definition __init__ (n_iterations batch_size : Z) (optimizer : Optimizer) (loss : Loss)
    (validation_data : option (np.matrix * list Z)) (uninitialized : Q) : result t :=
  let empty := np.Arr0 uninitialized in
  Ok match validation_data with
     | Some (X_val, y_val) =>
         mk n_iterations optimizer [] (mk_errors [] []) loss batch_size
            (np.Arr2 X_val) (np.Arr2 (categorical_to_binary y_val))
     | None =>
         mk n_iterations optimizer [] (mk_errors [] []) loss batch_size empty empty
     end.

(** [add]: a layer that has an [initialize] method (a [DenseLayer]) is
    initialized with the network's optimizer, then appended. *)
Definition add (layer : Layer) : M (t * rng) unit :=
  fun '(self, g) =>
    match layer with
    | Dense l =>
        match DenseLayer.initialize (optimizer self) (l, g) with
        | (Ok _, (l', g')) => (Ok tt, (set_layers self (layers self ++ [Dense l']), g'))
        | (Raise e, (_, g')) => (Raise e, (self, g'))
        end
    | Dropout l => (Ok tt, (set_layers self (layers self ++ [Dropout l]), g))
    end.

(** [for layer in self.layers: layer_output = layer.forward_pass(layer_output, training)];
    the layers already visited keep what the pass wrote into them, also when
    a later layer raises. *)
Fixpoint forward_layers (layer_output : np.ndarray) (training : bool)
    (ls : list Layer) (g : rng) : result np.ndarray * (list Layer * rng) :=
  match ls with
  | [] => (Ok layer_output, ([], g))
  | layer :: rest =>
      match forward_pass layer_output training (layer, g) with
      | (Ok out, (layer', g')) =>
          let '(r, (rest', g'')) := forward_layers out training rest g' in
          (r, (layer' :: rest', g''))
      | (Raise e, (layer', g')) => (Raise e, (layer' :: rest, g'))
      end
  end.

(** [for layer in reversed(self.layers): acc_grad = layer.backward_pass(acc_grad)] *)
Fixpoint backward_layers (acc_grad : np.ndarray) (ls : list Layer)
  : result np.ndarray * list Layer :=
  match ls with
  | [] => (Ok acc_grad, [])
  | layer :: rest =>
      match backward_layers acc_grad rest with
      | (Ok grad, rest') =>
          let (r, layer') := backward_pass grad layer in
          (r, layer' :: rest')
      | (Raise e, rest') => (Raise e, layer :: rest')
      end
  end.

Definition _forward_pass (X : np.ndarray) (training : bool) : M (t * rng) np.ndarray :=
  fun '(self, g) =>
    let '(r, (ls, g')) := forward_layers X training (layers self) g in
    (r, (set_layers self ls, g')).

Definition _backward_pass (loss_grad : np.ndarray) : M (t * rng) unit :=
  fun '(self, g) =>
    let (r, ls) := backward_layers loss_grad (layers self) in
    (let? _ := r in Ok tt, (set_layers self ls, g)).

(** Modelled from the spec: [shuffle_data] of
    [mlfromscratch.utils.data_manipulation] is not among the sources; it
    "shuffles (X, y) jointly (same permutation applied to both)". *)
Definition shuffle_data (X y : np.matrix) : M (t * rng) (np.matrix * np.matrix) :=
  fun '(self, g) =>
    let (idx, g') := shuffle g (np.arange (length X)) in
    (let? X_ := np.take X idx in let? y_ := np.take y idx in Ok (X_, y_), (self, g')).

Definition append_training (e : Q) : M (t * rng) unit :=
  modify (fun '(self, g) =>
    (set_errors self (mk_errors (training (errors self) ++ [e]) (validation (errors self))), g)).

Definition append_validation (e : Q) : M (t * rng) unit :=
  modify (fun '(self, g) =>
    (set_errors self (mk_errors (training (errors self)) (validation (errors self) ++ [e])), g)).

(** The body of [for idx in np.array_split(...)], over the remaining splits. *)
Fixpoint batches (X_ y_ : np.matrix) (splits : list (list nat)) (batch_t_error : Q)
  : M (t * rng) Q :=
  match splits with
  | [] => ret batch_t_error
  | idx :: rest =>
      X_batch <- lift (np.take X_ idx) ;;
      y_batch <- lift (np.take y_ idx) ;;
      y_pred <- _forward_pass (np.Arr2 X_batch) true ;;
      '(self, _) <- get ;;
      losses <- lift (loss (cross_ent self) (np.Arr2 y_batch) y_pred) ;;
      let batch_t_error := (batch_t_error + np.mean losses)%Q in
      loss_grad <- lift (loss_gradient (cross_ent self) (np.Arr2 y_batch) y_pred) ;;
      _backward_pass loss_grad ;;;
      batches X_ y_ rest batch_t_error
  end.

(** One round of [for _ in bar(range(self.n_iterations))].  The validation
    pass calls [_forward_pass(self.X_val)] and leaves [training] at its
    default, [True]. *)
Definition epoch (X y : np.matrix) (n_samples : nat) (n_batches : Z) : M (t * rng) unit :=
  '(X_, y_) <- shuffle_data X y ;;
  splits <- lift (np.array_split (np.arange n_samples) n_batches) ;;
  batch_t_error <- batches X_ y_ splits 0%Q ;;
  append_training (batch_t_error / inject_Z n_batches)%Q ;;;
  '(self, _) <- get ;;
  if np.any (X_val self) then
    y_val_p <- _forward_pass (X_val self) true ;;
    losses <- lift (loss (cross_ent self) (y_val self) y_val_p) ;;
    append_validation (np.mean losses)
  else ret tt.

(** The body of the loop over the splits once the batch is cut out: forward
    pass in training mode, loss, loss gradient, backward pass. *)
Definition batch_step (X_batch y_batch : np.matrix) (batch_t_error : Q) : M (t * rng) Q :=
  y_pred <- _forward_pass (np.Arr2 X_batch) true ;;
  '(self, _) <- get ;;
  losses <- lift (loss (cross_ent self) (np.Arr2 y_batch) y_pred) ;;
  let batch_t_error := (batch_t_error + np.mean losses)%Q in
  loss_grad <- lift (loss_gradient (cross_ent self) (np.Arr2 y_batch) y_pred) ;;
  _backward_pass loss_grad ;;;
  ret batch_t_error.

(** One such step on each batch of a list, in order, stopping at the first
    that raises. *)
Fixpoint train_batches (batches : list (np.matrix * np.matrix)) (batch_t_error : Q)
  : M (t * rng) Q :=
  match batches with
  | [] => ret batch_t_error
  | (X_batch, y_batch) :: rest =>
      batch_t_error <- batch_step X_batch y_batch batch_t_error ;;
      train_batches rest batch_t_error
  end.

(** What an epoch does after its last batch: record the mean training loss
    and, under the guard [self.X_val.any()], the validation loss. *)
Definition epoch_end (batch_t_error : Q) (n_batches : Z) : M (t * rng) unit :=
  append_training (batch_t_error / inject_Z n_batches)%Q ;;;
  '(self, _) <- get ;;
  if np.any (X_val self) then
    y_val_p <- _forward_pass (X_val self) true ;;
    losses <- lift (loss (cross_ent self) (y_val self) y_val_p) ;;
    append_validation (np.mean losses)
  else ret tt.

Fixpoint epochs (n : nat) (X y : np.matrix) (n_samples : nat) (n_batches : Z)
  : M (t * rng) unit :=
  match n with
  | O => ret tt
  | S n' => epoch X y n_samples n_batches ;;; epochs n' X y n_samples n_batches
  end.

(** [n_batches = int(n_samples / self.batch_size)].  For a negative batch
    size Python 2 floors and Python 3 truncates; both give a count below 1,
    which [np.array_split] refuses the same way. *)
Definition fit (X : np.matrix) (y : list Z) : M (t * rng) unit :=
  let y := categorical_to_binary y in
  let n_samples := length X in
  '(self, _) <- get ;;
  if (batch_size self =? 0)%Z then raise ZeroDivisionError
  else
    let n_batches := Z.quot (Z.of_nat n_samples) (batch_size self) in
    epochs (Z.to_nat (n_iterations self)) X y n_samples n_batches.

Definition predict (X : np.matrix) : M (t * rng) (list nat) :=
  output <- _forward_pass (np.Arr2 X) false ;;
  lift (np.argmax_axis1 output).

End MultilayerPerceptron.
End MultilayerPerceptron.

(** ** gradient_boosting_regressor.py *)

(** [RegressionTree] comes from [regression_tree.py], which is not among the
    sources: its constructor, [fit] and [predict] are parameters.  A tree is
    an object that [fit] mutates; here [tree_fit] returns the fitted tree. *)
Class RegressionTrees : Type := {
  RegressionTree : Type;
  new_tree : Z -> Q -> Z -> RegressionTree;
  tree_fit : RegressionTree -> np.matrix -> np.vector -> RegressionTree;
  tree_predict : RegressionTree -> np.matrix -> np.vector
}.

Module GradientBoostingRegressor.
Section GradientBoostingRegressor.
Context {R : RegressionTrees}.

Record t : Type := mk {
  n_estimators : Z;
  learning_rate : Q;
  max_features : option Z;
  min_samples_split : Z;
  min_var_red : Q;
  max_depth : Z;
  debug : bool;
  trees : list RegressionTree
}.

Definition set_trees (self : t) (v : list RegressionTree) : t :=
  mk (n_estimators self) (learning_rate self) (max_features self) (min_samples_split self)
     (min_var_red self) (max_depth self) (debug self) v.

(** [range(n_estimators)] is empty for a count below 1. *)
Definition __init__ (n_estimators : Z) (learning_rate : Q) (max_features : option Z)
    (min_samples_split : Z) (min_var_red : Q) (max_depth : Z) (debug : bool) : result t :=
  Ok (mk n_estimators learning_rate max_features min_samples_split min_var_red max_depth debug
         (repeat (new_tree min_samples_split min_var_red max_depth) (Z.to_nat n_estimators))).

(** [residuals = -(y - y_pred)] *)
Definition residuals (y y_pred : np.vector) : np.vector :=
  map Qopp (np.zip_with Qminus y y_pred).

(** The loop of [fit] over the remaining trees; the trees fitted so far stay
    fitted when the in-place subtraction raises. *)
Fixpoint fit_trees (learning_rate : Q) (X : np.matrix) (y y_pred : np.vector)
    (trees : list RegressionTree) : result np.vector * list RegressionTree :=
  match trees with
  | [] => (Ok y_pred, [])
  | tree :: rest =>
      let tree := tree_fit tree X (residuals y y_pred) in
      let residual_pred := tree_predict tree X in
      match np.isub y_pred (map (Qmult learning_rate) residual_pred) with
      | Ok y_pred => 
          let (r, rest') := fit_trees learning_rate X y y_pred rest in
          (r, tree :: rest')
      | Raise e => (Raise e, tree :: rest)
      end
  end.

Definition fit (X : np.matrix) (y : np.vector) : M t unit :=
  fun self =>
    let y_pred := np.zeros (length y) in
    let (r, trees) := fit_trees (learning_rate self) X y y_pred (trees self) in
    (let? _ := r in Ok tt, set_trees self trees).

Fixpoint predict_trees (learning_rate : Q) (X : np.matrix) (y_pred : np.vector)
    (trees : list RegressionTree) : result np.vector :=
  match trees with
  | [] => Ok y_pred
  | tree :: rest =>
      let? y_pred := np.isub y_pred (map (Qmult learning_rate) (tree_predict tree X)) in
      predict_trees learning_rate X y_pred rest
  end.

Definition predict (self : t) (X : np.matrix) : result np.vector :=
  predict_trees (learning_rate self) X (np.zeros (length X)) (trees self).

(** *** The boosting loop in the words of the specification

    Predictions start at zero; each tree in sequence is fitted to the
    residuals [prediction - target] and [learning_rate * tree_prediction] is
    subtracted from the running prediction; [predict] repeats the
    accumulation without fitting. *)

Definition subtract_scaled (learning_rate : Q) (prediction tree_prediction : np.vector)
  : np.vector :=
  np.zip_with (fun p r => (p - learning_rate * r)%Q) prediction tree_prediction.

Definition spec_round (learning_rate : Q) (X : np.matrix) (target : np.vector)
    (st : np.vector * list RegressionTree) (tree : RegressionTree)
  : np.vector * list RegressionTree :=
  let (prediction, fitted) := st in
  let fitted_tree := tree_fit tree X (np.zip_with Qminus prediction target) in
  (subtract_scaled learning_rate prediction (tree_predict fitted_tree X),
   fitted ++ [fitted_tree]).

Definition spec_fit (learning_rate : Q) (X : np.matrix) (target : np.vector)
    (trees : list RegressionTree) : np.vector * list RegressionTree :=
  fold_left (spec_round learning_rate X target) trees (np.zeros (length target), []).

Definition spec_predict (learning_rate : Q) (X : np.matrix) (trees : list RegressionTree)
  : np.vector :=
  fold_left (fun prediction tree =>
               subtract_scaled learning_rate prediction (tree_predict tree X))
            trees (np.zeros (length X)).

End GradientBoostingRegressor.
End GradientBoostingRegressor.

(** ** Concrete collaborators for the worked scenarios *)

Module Scenario.

Definition sub_scaled (lr : Q) (w g : np.matrix) : np.matrix :=
  np.zip_with (np.zip_with (fun x d => (x - lr * d)%Q)) w g.

(** One-hot rows, as wide as the largest label plus one. *)
Definition one_hot (y : list Z) : np.matrix :=
  let n_col := Z.to_nat (fold_right Z.max 0%Z y + 1) in
  map (fun label => map (fun j => if (Z.of_nat j =? label)%Z then 1%Q else 0%Q) (seq 0 n_col)) y.

(** A generator that counts its draws and alternates 3/4, 1/4; [shuffle]
    reverses; the optimizer is plain gradient descent, [w - lr * grad], whose
    only state is the learning rate; [sqrt] is exact on perfect squares. *)
Definition collaborators : Collaborators := {|
  rng := nat;
  uniform := fun g => (if Nat.even g then 3 # 4 else 1 # 4, S g);
  shuffle := fun g idx => (rev idx, S g);
  sqrt := fun x => inject_Z (Z.sqrt (Qfloor x));
  categorical_to_binary := one_hot;
  Optimizer := Q;
  update := fun lr w grad => (sub_scaled lr w grad, lr);
  shuffle_permutes := fun _ idx => Permutation_sym (Permutation_rev idx);
  categorical_to_binary_rows := fun y => length_map _ y
|}.

Definition identity : Activation := {|
  function := fun x => x;
  gradient := map (map (fun _ => 1%Q))
|}.

(** [SquareLoss]: [0.5 * (y - y_pred)^2] and [-(y - y_pred)]. *)
Definition SquareLoss : Loss := {|
  loss := np.elementwise_nd (fun y p => ((1 # 2) * ((y - p) * (y - p)))%Q);
  loss_gradient := np.elementwise_nd (fun y p => (- (y - p))%Q)
|}.

(** The Dense layer of the worked example: two inputs, one unit, weights
    [[1],[1]], bias 0, identity activation, gradient descent with the given
    learning rate. *)
Definition dense_2_1 (lr : Q) : DenseLayer.t (C := collaborators) :=
  DenseLayer.mk (C := collaborators) identity None false 2%Z 1%Z
    (Some [[1%Q]; [1%Q]]) (Some [[0%Q]]) (Some lr) (Some lr).

(** A network as [__init__] and [add] leave it, with the layers' parameters
    set by hand; the optimizer is gradient descent with learning rate 1/100. *)
Definition network (n_iterations batch_size : Z)
    (layers : list (MultilayerPerceptron.Layer (C := collaborators)))
    (X_val y_val : np.ndarray) : MultilayerPerceptron.t (C := collaborators) :=
  MultilayerPerceptron.mk (C := collaborators) n_iterations (1 # 100) layers
    (MultilayerPerceptron.mk_errors [] []) SquareLoss batch_size X_val y_val.

(** One Dropout layer (p = 1/2), one epoch, batch size 1, validation data
    [(X_val, y_val)]. *)
Definition dropout_net (X_val : np.matrix) (y_val : list Z)
  : MultilayerPerceptron.t (C := collaborators) :=
  network 1 1 [MultilayerPerceptron.Dropout (DropoutLayer.mk (1 # 2) None)]
    (np.Arr2 X_val) (np.Arr2 (one_hot y_val)).

(** Trees that remember the mean of the residuals they were fitted to. *)
Definition mean_trees : RegressionTrees := {|
  RegressionTree := Q;
  new_tree := fun _ _ _ => 0%Q;
  tree_fit := fun _ _ residuals => np.mean (np.Arr2 [residuals]);
  tree_predict := fun tree X => map (fun _ => tree) X
|}.

End Scenario.

(** * Properties *)

(** ** Dropout in inference mode *)

Section DropoutProperties.
Context {C : Collaborators}.

(** C8: with [training=False] a Dropout layer with drop probability [p]
    returns [X * (1 - p)] elementwise, on a 2-d and on a 0-d input alike, and
    neither draws from the random generator nor touches the cached mask; with
    [p = 1] the input [[5,5]] comes back as [[0,0]]. *)
Theorem dropout_inference_scales_by_keep_probability :
  (forall (self : DropoutLayer.t) (m : np.matrix) (g : rng),
      DropoutLayer.forward_pass (np.Arr2 m) false (self, g)
      = (Ok (np.Arr2 (map (map (fun x => (x * (1 - DropoutLayer.p self))%Q)) m)), (self, g)))
  /\ (forall (self : DropoutLayer.t) (x : Q) (g : rng),
      DropoutLayer.forward_pass (np.Arr0 x) false (self, g)
      = (Ok (np.Arr0 (x * (1 - DropoutLayer.p self))%Q), (self, g)))
  /\ (forall (mask : option np.ndarray) (g : rng),
      DropoutLayer.forward_pass (np.Arr2 [[5; 5]]) false (DropoutLayer.mk 1 mask, g)
      = (Ok (np.Arr2 [[0; 0]]), (DropoutLayer.mk 1 mask, g)))%Q.
Proof.
  repeat split; intros; reflexivity.
Qed.

End DropoutProperties.

(** ** Construction *)

Section ConstructionProperties.
Context {C : Collaborators}.

(** C7, as the code has it: neither constructor checks its arguments.
    [MultilayerPerceptron.__init__] stores every iteration count and batch
    size as given, and [DropoutLayer.__init__] every drop probability, and
    neither raises. *)
Theorem constructors_store_any_configuration :
  (forall (n_iterations batch_size : Z) (optimizer : Optimizer) (loss : Loss)
          (validation_data : option (np.matrix * list Z)) (uninitialized : Q),
      exists net,
        MultilayerPerceptron.__init__ n_iterations batch_size optimizer loss
                                      validation_data uninitialized = Ok net
        /\ MultilayerPerceptron.n_iterations net = n_iterations
        /\ MultilayerPerceptron.batch_size net = batch_size
        /\ MultilayerPerceptron.layers net = []
        /\ MultilayerPerceptron.errors net = MultilayerPerceptron.mk_errors [] [])
  /\ (forall p : Q, DropoutLayer.__init__ p = Ok (DropoutLayer.mk p None)).
Proof.
  split.
  - intros n b o l v u. unfold MultilayerPerceptron.__init__.
    destruct v as [[Xv yv]|]; eexists; repeat split.
  - reflexivity.
Qed.

End ConstructionProperties.

(** C7 fails as stated: an iteration count of -3 with a batch size of 0, and
    a drop probability of 2, are accepted at construction. *)
Lemma constructors_accept_invalid_configuration :
  ~ (exists e, MultilayerPerceptron.__init__ (C := Scenario.collaborators)
                 (-3) 0 (1 # 100) Scenario.SquareLoss None 0 = Raise e)
  /\ ~ (exists e, DropoutLayer.__init__ 2 = Raise e).
Proof.
  split; intros [e H]; discriminate H.
Qed.

(** ** The Dense layer *)

Section DenseProperties.
Context {C : Collaborators}.

Lemma update_W_inv (grad : np.matrix) (self self' : DenseLayer.t) :
  DenseLayer.update_W grad self = (Ok tt, self') ->
  exists opt W0,
    DenseLayer.W_opt self = Some opt /\ DenseLayer.W self = Some W0
    /\ self' = DenseLayer.set_W
                 (DenseLayer.set_W_opt self (Some (snd (update opt W0 grad))))
                 (Some (fst (update opt W0 grad))).
Proof.
  unfold DenseLayer.update_W, bind, get, attr, ret, raise, put.
  destruct (DenseLayer.W_opt self) as [opt|]; [|discriminate].
  destruct (DenseLayer.W self) as [W0|]; [|discriminate].
  destruct (update opt W0 grad) as [new_W opt'] eqn:E.
  intros H. exists opt, W0. rewrite E. cbn. now inversion H.
Qed.

Lemma update_wb_inv (grad : np.matrix) (self self' : DenseLayer.t) :
  DenseLayer.update_wb grad self = (Ok tt, self') ->
  exists opt b0,
    DenseLayer.wb_opt self = Some opt /\ DenseLayer.wb self = Some b0
    /\ self' = DenseLayer.set_wb
                 (DenseLayer.set_wb_opt self (Some (snd (update opt b0 grad))))
                 (Some (fst (update opt b0 grad))).
Proof.
  unfold DenseLayer.update_wb, bind, get, attr, ret, raise, put.
  destruct (DenseLayer.wb_opt self) as [opt|]; [|discriminate].
  destruct (DenseLayer.wb self) as [b0|]; [|discriminate].
  destruct (update opt b0 grad) as [new_wb opt'] eqn:E.
  intros H. exists opt, b0. rewrite E. cbn. now inversion H.
Qed.

(** C1, what the code does: the gradient [backward_pass] hands to the
    previous layer is [layer_grad . W'.T] where [W'] is the weight matrix the
    layer holds after the call, that is [W_opt.update(W, grad_w)], the value
    the optimizer step of this same call produced. *)
Theorem backward_pass_propagates_through_updated_W
    (self self' : DenseLayer.t) (acc_grad : np.ndarray) (out : np.matrix) :
  DenseLayer.backward_pass acc_grad self = (Ok out, self') ->
  exists layer_grad grad_w W0 opt,
    DenseLayer.layer_grad self acc_grad = Ok layer_grad
    /\ DenseLayer.grad_w self layer_grad = Ok grad_w
    /\ DenseLayer.W self = Some W0
    /\ DenseLayer.W_opt self = Some opt
    /\ DenseLayer.W self' = Some (fst (update opt W0 grad_w))
    /\ np.dot (np.Arr2 layer_grad) (np.T (fst (update opt W0 grad_w))) = Ok out.
Proof.
  unfold DenseLayer.backward_pass.
  unfold bind at 1, get at 1. unfold bind at 1, lift at 1.
  destruct (DenseLayer.layer_grad self acc_grad) as [lg|e] eqn:Elg; [|discriminate].
  unfold bind at 1, lift at 1.
  destruct (DenseLayer.grad_w self lg) as [gw|e] eqn:Egw; [|discriminate].
  unfold bind at 1.
  destruct (DenseLayer.update_W gw self) as [[[]|e] s1] eqn:E1; [|discriminate].
  unfold bind at 1.
  destruct (DenseLayer.update_wb (DenseLayer.grad_wb lg) s1) as [[[]|e] s2] eqn:E2;
    [|discriminate].
  apply update_W_inv in E1. destruct E1 as (opt & W0 & Hopt & HW & ->).
  apply update_wb_inv in E2. destruct E2 as (optb & b0 & _ & _ & ->).
  unfold bind, get, attr, ret, raise, lift.
  cbn [DenseLayer.W DenseLayer.set_W DenseLayer.set_wb DenseLayer.set_wb_opt
       DenseLayer.set_W_opt].
  intros H. injection H as Hout <-.
  exists lg, gw, W0, opt. repeat split; try assumption; reflexivity.
Qed.

End DenseProperties.

(** C1 at a concrete layer: two inputs, one unit, [W = [[1],[1]]], bias 0,
    identity activation, gradient descent with learning rate 1, cached input
    [[1,2]], incoming gradient [[1]].  The step moves [W] to [[0],[-1]] and
    the gradient handed back is [[0,-1]], not [[1,1]]. *)
Lemma backward_pass_propagates_through_updated_W_witness :
  exists layer_grad grad_w W0 opt,
    let self := DenseLayer.set_layer_input (Scenario.dense_2_1 1)
                  (Some (np.Arr2 [[1; 2]]))%Q in
    let self' := snd (DenseLayer.backward_pass (np.Arr2 [[1%Q]]) self) in
    DenseLayer.layer_grad self (np.Arr2 [[1%Q]]) = Ok layer_grad
    /\ DenseLayer.grad_w self layer_grad = Ok grad_w
    /\ DenseLayer.W self = Some W0
    /\ DenseLayer.W_opt self = Some opt
    /\ DenseLayer.W self' = Some (fst (update opt W0 grad_w))
    /\ np.dot (np.Arr2 layer_grad) (np.T (fst (update opt W0 grad_w))) = Ok [[0; -1]]%Q.
Proof.
  apply (@backward_pass_propagates_through_updated_W Scenario.collaborators
           (DenseLayer.set_layer_input (Scenario.dense_2_1 1) (Some (np.Arr2 [[1; 2]]%Q)))
           (snd (DenseLayer.backward_pass (np.Arr2 [[1%Q]])
                   (DenseLayer.set_layer_input (Scenario.dense_2_1 1)
                      (Some (np.Arr2 [[1; 2]]%Q)))))
           (np.Arr2 [[1%Q]]) [[0; -1]]%Q).
  reflexivity.
Defined.

(** C5, evaluated: the Dense layer with two inputs, one unit, [W = [[1],[1]]],
    bias 0 and identity activation maps [[1,2]] to [[3]]; the backward pass
    with downstream gradient [[1]] computes the weight gradient [[1],[2]].
    With a gradient-descent optimizer of learning rate 1 that step moves [W]
    to [[0],[-1]], and the gradient returned for the previous layer is
    [[0,-1]], taken through the moved weights, where the weights of the
    forward pass give [[1,1]]. *)
Theorem dense_scenario_forward_and_backward :
  let layer := Scenario.dense_2_1 1 in
  let forward := DenseLayer.forward_pass (np.Arr2 [[1; 2]]%Q) true layer in
  let backward := DenseLayer.backward_pass (np.Arr2 [[1%Q]]) (snd forward) in
  fst forward = Ok [[3%Q]]
  /\ DenseLayer.layer_input (snd forward) = Some (np.Arr2 [[1; 2]]%Q)
  /\ DenseLayer.layer_grad (snd forward) (np.Arr2 [[1%Q]]) = Ok [[1%Q]]
  /\ DenseLayer.grad_w (snd forward) [[1%Q]] = Ok [[1]; [2]]%Q
  /\ DenseLayer.W (snd backward) = Some [[0]; [-1]]%Q
  /\ fst backward = Ok [[0; -1]]%Q
  /\ np.dot (np.Arr2 [[1%Q]]) (np.T [[1]; [1]]%Q) = Ok [[1; 1]]%Q.
Proof.
  repeat split.
Qed.

(** ** Forward passes and the state they leave *)

Section ForwardProperties.
Context {C : Collaborators}.

Lemma dense_forward_pass_unfold (x : np.ndarray) (training : bool) (l : DenseLayer.t) :
  DenseLayer.forward_pass x training l
  = (let? s := DenseLayer.pre_activation l x in Ok (function (DenseLayer.activation l) s),
     DenseLayer.set_layer_input l (Some x)).
Proof.
  unfold DenseLayer.forward_pass, bind, modify, get, lift, ret.
  change (DenseLayer.pre_activation (DenseLayer.set_layer_input l (Some x)) x)
    with (DenseLayer.pre_activation l x).
  destruct (DenseLayer.pre_activation l x); reflexivity.
Qed.

(** A forward pass in inference mode draws nothing, writes nothing but the
    cached input of a Dense layer, and gives the same answer when repeated. *)
Lemma forward_pass_inference (x : np.ndarray) (layer : MultilayerPerceptron.Layer) (g : rng) :
  exists r layer',
    MultilayerPerceptron.forward_pass x false (layer, g) = (r, (layer', g))
    /\ MultilayerPerceptron.without_cache layer' = MultilayerPerceptron.without_cache layer
    /\ MultilayerPerceptron.forward_pass x false (layer', g) = (r, (layer', g)).
Proof.
  destruct layer as [l|l]; unfold MultilayerPerceptron.forward_pass.
  - rewrite !dense_forward_pass_unfold.
    change (DenseLayer.pre_activation (DenseLayer.set_layer_input l (Some x)) x)
      with (DenseLayer.pre_activation l x).
    do 2 eexists. repeat split.
    rewrite dense_forward_pass_unfold. reflexivity.
  - do 2 eexists. repeat split.
Qed.

Lemma forward_layers_inference (ls : list MultilayerPerceptron.Layer) :
  forall (x : np.ndarray) (g : rng),
  exists r ls',
    MultilayerPerceptron.forward_layers x false ls g = (r, (ls', g))
    /\ map MultilayerPerceptron.without_cache ls' = map MultilayerPerceptron.without_cache ls
    /\ MultilayerPerceptron.forward_layers x false ls' g = (r, (ls', g)).
Proof.
  induction ls as [|layer rest IH]; intros x g.
  - exists (Ok x), []. repeat split.
  - destruct (forward_pass_inference x layer g) as (r & layer' & E & Hc & E').
    cbn [MultilayerPerceptron.forward_layers]. rewrite E.
    destruct r as [out|e].
    + destruct (IH out g) as (r2 & rest' & E2 & Hc2 & E2').
      rewrite E2. exists r2, (layer' :: rest'). repeat split.
      * cbn [map]. now rewrite Hc, Hc2.
      * cbn [MultilayerPerceptron.forward_layers]. now rewrite E', E2'.
    + exists (Raise e), (layer' :: rest). repeat split.
      * cbn [map]. now rewrite Hc.
      * cbn [MultilayerPerceptron.forward_layers]. now rewrite E'.
Qed.

(** A forward pass, in training mode or not, updates no parameter and no
    optimizer of any layer. *)
Lemma forward_layers_keeps_parameters (ls : list MultilayerPerceptron.Layer) :
  forall (x : np.ndarray) (training : bool) (g : rng),
    map MultilayerPerceptron.parameters
        (fst (snd (MultilayerPerceptron.forward_layers x training ls g)))
    = map MultilayerPerceptron.parameters ls.
Proof.
  induction ls as [|layer rest IH]; intros x training g; [reflexivity|].
  cbn [MultilayerPerceptron.forward_layers].
  assert (H : MultilayerPerceptron.parameters
                (fst (snd (MultilayerPerceptron.forward_pass x training (layer, g))))
              = MultilayerPerceptron.parameters layer).
  { destruct layer as [l|l]; unfold MultilayerPerceptron.forward_pass.
    - rewrite dense_forward_pass_unfold. reflexivity.
    - destruct (DropoutLayer.forward_pass x training (l, g)) as [r [l' g']]. reflexivity. }
  destruct (MultilayerPerceptron.forward_pass x training (layer, g)) as [[out|e] [layer' g']];
    cbn [fst snd] in H.
  - specialize (IH out training g').
    destruct (MultilayerPerceptron.forward_layers out training rest g') as [r [rest' g'']].
    cbn [fst snd map] in *. now rewrite H, IH.
  - cbn [fst snd map]. now rewrite H.
Qed.

(** C4, as the code has it: [predict] draws no random number and leaves the
    network as it was except for the input each Dense layer caches in
    [layer_input]: weights, biases, optimizers, masks, error history and
    configuration are unchanged; and a second [predict] on the same input
    returns the same labels and changes nothing further. *)
Theorem predict_changes_only_cached_inputs
    (self : MultilayerPerceptron.t) (X : np.matrix) (g : rng) :
  exists labels self',
    MultilayerPerceptron.predict X (self, g) = (labels, (self', g))
    /\ MultilayerPerceptron.set_layers self'
         (map MultilayerPerceptron.without_cache (MultilayerPerceptron.layers self'))
       = MultilayerPerceptron.set_layers self
           (map MultilayerPerceptron.without_cache (MultilayerPerceptron.layers self))
    /\ MultilayerPerceptron.predict X (self', g) = (labels, (self', g)).
Proof.
  destruct (forward_layers_inference (MultilayerPerceptron.layers self) (np.Arr2 X) g)
    as (r & ls' & E & Hc & E').
  exists (let? out := r in np.argmax_axis1 out), (MultilayerPerceptron.set_layers self ls').
  unfold MultilayerPerceptron.predict, MultilayerPerceptron._forward_pass, bind, lift.
  cbn [MultilayerPerceptron.layers MultilayerPerceptron.set_layers]. rewrite E, E'.
  repeat split.
  - destruct r; reflexivity.
  - unfold MultilayerPerceptron.set_layers; cbn. now rewrite Hc.
  - destruct r; reflexivity.
Qed.

End ForwardProperties.

(** C4 fails as stated: [predict] on a network of one Dense layer that has
    not seen any input leaves the layer holding the input [[1,2]]. *)
Lemma predict_overwrites_cached_input :
  let net := Scenario.network 1 1 [MultilayerPerceptron.Dense (Scenario.dense_2_1 1)]
               (np.Arr0 0) (np.Arr0 0) in
  let after := MultilayerPerceptron.predict [[1; 2]]%Q (net, 0) in
  fst after = Ok [0]
  /\ MultilayerPerceptron.layers (fst (snd after)) <> MultilayerPerceptron.layers net.
Proof.
  split; [reflexivity|].
  intros H. apply (f_equal (fun ls => match ls with
                                      | [MultilayerPerceptron.Dense l] => DenseLayer.layer_input l
                                      | _ => None
                                      end)) in H.
  discriminate H.
Qed.

(** ** Invariants of a stateful computation *)

Section Keeps.
Variables (St : Type) (Inv : St -> Prop).

Lemma keeps_ret {A : Type} (a : A) : keeps Inv (ret a).
Proof. intros s H; exact H. Qed.

Lemma keeps_raise {A : Type} (e : exn) : keeps Inv (@raise St A e).
Proof. intros s H; exact H. Qed.

Lemma keeps_lift {A : Type} (r : result A) : keeps Inv (lift r : M St A).
Proof. intros s H; exact H. Qed.

Lemma keeps_get : keeps Inv get.
Proof. intros s H; exact H. Qed.

Lemma keeps_bind {A B : Type} (m : M St A) (k : A -> M St B) :
  keeps Inv m -> (forall a, keeps Inv (k a)) -> keeps Inv (bind m k).
Proof.
  intros Hm Hk s H. unfold bind. specialize (Hm s H).
  destruct (m s) as [[a|e] s']; cbn in *.
  - apply Hk, Hm.
  - exact Hm.
Qed.

End Keeps.

(** ** Index arrays and splits *)

Section IndexFacts.
Variable A : Type.

Lemma map_nth_arange (a : list A) (d : A) :
  map (fun i => nth i a d) (np.arange (length a)) = a.
Proof.
  unfold np.arange. apply (nth_ext _ _ d d).
  - now rewrite length_map, length_seq.
  - intros n Hn. rewrite length_map, length_seq in Hn.
    rewrite (nth_indep _ d (nth 0 a d)) by now rewrite length_map, length_seq.
    rewrite (map_nth (fun i => nth i a d) (seq 0 (length a)) 0 n).
    now rewrite seq_nth.
Qed.

Lemma take_in_range (a : list A) (d : A) (idx : list nat) :
  Forall (fun i => i < length a) idx ->
  np.take a idx = Ok (map (fun i => nth i a d) idx).
Proof.
  unfold np.take. induction 1 as [|i idx Hi _ IH]; [reflexivity|].
  cbn [map sequence]. rewrite (nth_error_nth' a d Hi), IH. reflexivity.
Qed.

Lemma take_permutation (a : list A) (idx : list nat) :
  Permutation idx (np.arange (length a)) ->
  exists l, np.take a idx = Ok l /\ Permutation l a /\ length l = length a.
Proof.
  intros HP. destruct a as [|d a'] eqn:Ea.
  - apply Permutation_sym, Permutation_nil in HP. subst idx.
    exists []. repeat split. constructor.
  - rewrite <- Ea in *. exists (map (fun i => nth i a d) idx).
    assert (HP' : Permutation (map (fun i => nth i a d) idx) a).
    { eapply Permutation_trans; [apply Permutation_map, HP|].
      rewrite map_nth_arange. apply Permutation_refl. }
    repeat split.
    + apply take_in_range. apply Forall_forall. intros i Hi.
      apply (Permutation_in _ HP) in Hi. unfold np.arange in Hi.
      apply in_seq in Hi. lia.
    + exact HP'.
    + now apply Permutation_length.
Qed.

Lemma split_sizes_length (sizes : list nat) :
  forall a : list A, length (np.split_sizes a sizes) = length sizes.
Proof.
  induction sizes as [|n sizes IH]; intros a; cbn; [reflexivity|now rewrite IH].
Qed.

Lemma split_sizes_concat (sizes : list nat) :
  forall a : list A, list_sum sizes = length a -> concat (np.split_sizes a sizes) = a.
Proof.
  induction sizes as [|n sizes IH]; intros a H.
  - symmetry in H. apply length_zero_iff_nil in H. now subst.
  - change (list_sum (n :: sizes)) with (n + list_sum sizes) in H.
    cbn [np.split_sizes concat].
    rewrite IH; [apply firstn_skipn|]. rewrite length_skipn. lia.
Qed.

Lemma split_sizes_lengths (sizes : list nat) :
  forall a : list A, list_sum sizes = length a ->
                     map (@length A) (np.split_sizes a sizes) = sizes.
Proof.
  induction sizes as [|n sizes IH]; intros a H; [reflexivity|].
  change (list_sum (n :: sizes)) with (n + list_sum sizes) in H.
  cbn [np.split_sizes map].
  rewrite IH by (rewrite length_skipn; lia).
  rewrite length_firstn. f_equal. lia.
Qed.

End IndexFacts.

Lemma NoDup_app_disjoint (A : Type) (l l' : list A) (x : A) :
  NoDup (l ++ l') -> In x l -> ~ In x l'.
Proof.
  induction l as [|a l IH]; cbn; intros Hnd Hin; [contradiction|].
  apply NoDup_cons_iff in Hnd as [Hna Hnd].
  destruct Hin as [->|Hin]; [|now apply IH].
  intros Hx. apply Hna, in_or_app. now right.
Qed.

(** An element of a duplicate-free concatenation lies in one piece only. *)
Lemma concat_NoDup_unique (A : Type) (ls : list (list A)) (x : A) :
  NoDup (concat ls) ->
  forall j j', In x (nth j ls []) -> In x (nth j' ls []) -> j = j'.
Proof.
  induction ls as [|l ls IH]; intros Hnd j j' Hj Hj'.
  - destruct j; contradiction.
  - cbn [concat] in Hnd.
    assert (Hin : forall i, In x (nth i ls []) -> In x (concat ls)).
    { intros i Hi. apply in_concat. exists (nth i ls []). split; [|exact Hi].
      destruct (Nat.lt_ge_cases i (length ls)) as [Hlt|Hge].
      - now apply nth_In.
      - rewrite nth_overflow in Hi by exact Hge. contradiction. }
    destruct j as [|j], j' as [|j']; cbn [nth] in Hj, Hj'.
    + reflexivity.
    + exfalso. exact (NoDup_app_disjoint _ _ x Hnd Hj (Hin _ Hj')).
    + exfalso. exact (NoDup_app_disjoint _ _ x Hnd Hj' (Hin _ Hj)).
    + f_equal. apply IH; [now apply NoDup_app_remove_l in Hnd|assumption..].
Qed.

Lemma concat_In_piece (A : Type) (ls : list (list A)) (x : A) :
  In x (concat ls) -> exists j, j < length ls /\ In x (nth j ls []).
Proof.
  intros H. apply in_concat in H as (l & Hl & Hx).
  apply (In_nth _ _ []) in Hl as (j & Hj & <-). now exists j.
Qed.

Lemma sequence_map_ok (A B : Type) (f : A -> result B) (h : A -> B) (l : list A) :
  Forall (fun a => f a = Ok (h a)) l -> sequence (map f l) = Ok (map h l).
Proof.
  induction 1 as [|a l Ha _ IH]; [reflexivity|].
  cbn [map sequence]. now rewrite Ha, IH.
Qed.

(** Taking the rows of [a] piece by piece, for pieces that make up all the
    indices in order, gives back [a] piece by piece. *)
Lemma take_pieces (A : Type) (a : list A) (d : A) (splits : list (list nat)) :
  concat splits = np.arange (length a) ->
  sequence (map (np.take a) splits) = Ok (map (map (fun i => nth i a d)) splits)
  /\ concat (map (map (fun i => nth i a d)) splits) = a.
Proof.
  intros Hc. split.
  - apply sequence_map_ok, Forall_forall. intros idx Hidx.
    apply take_in_range, Forall_forall. intros i Hi.
    assert (Hin : In i (concat splits)) by (apply in_concat; eauto).
    rewrite Hc in Hin. apply in_seq in Hin. lia.
  - rewrite <- concat_map, Hc. apply map_nth_arange.
Qed.

Lemma list_sum_repeat (x n : nat) : list_sum (repeat x n) = n * x.
Proof.
  induction n as [|n IH]; [reflexivity|].
  change (list_sum (repeat x (S n))) with (x + list_sum (repeat x n)).
  rewrite IH. lia.
Qed.

(** The section sizes [np.array_split] uses add up to the whole array. *)
Lemma section_sizes_sum (n k : nat) :
  0 < k ->
  list_sum (repeat (S (n / k)) (n mod k) ++ repeat (n / k) (k - n mod k)) = n.
Proof.
  intros Hk. rewrite list_sum_app, !list_sum_repeat.
  pose proof (Nat.mod_upper_bound n k ltac:(lia)) as Hm.
  pose proof (Nat.div_mod_eq n k) as Hd. nia.
Qed.

Lemma array_split_ok (A : Type) (a : list A) (k : Z) :
  (0 < k)%Z ->
  let n := Z.to_nat k in
  let sizes := repeat (S (length a / n)) (length a mod n)
               ++ repeat (length a / n) (n - length a mod n) in
  np.array_split a k = Ok (np.split_sizes a sizes)
  /\ length (np.split_sizes a sizes) = n
  /\ concat (np.split_sizes a sizes) = a
  /\ map (@length A) (np.split_sizes a sizes) = sizes.
Proof.
  intros Hk n sizes.
  assert (Hn : 0 < n) by (unfold n; lia).
  assert (Hs : list_sum sizes = length a) by (apply section_sizes_sum; exact Hn).
  repeat split.
  - unfold np.array_split. destruct (Z.leb_spec k 0); [lia|reflexivity].
  - rewrite split_sizes_length. unfold sizes.
    rewrite length_app, !repeat_length.
    pose proof (Nat.mod_upper_bound (length a) n ltac:(lia)). lia.
  - now apply split_sizes_concat.
  - now apply split_sizes_lengths.
Qed.

Lemma array_split_rejects (A : Type) (a : list A) (k : Z) :
  (k <= 0)%Z -> np.array_split a k = Raise ValueError.
Proof.
  intros Hk. unfold np.array_split. destruct (Z.leb_spec k 0); [reflexivity|lia].
Qed.

(** ** Training *)

Section FitProperties.
Context {C : Collaborators}.

Section Validation.
Variables (X_val0 : np.ndarray) (recorded : list Q).

Lemma _forward_pass_keeps (X : np.ndarray) (training : bool) :
  keeps (MultilayerPerceptron.validation_state X_val0 recorded)
    (MultilayerPerceptron._forward_pass X training).
Proof.
  intros [self g] H. unfold MultilayerPerceptron._forward_pass.
  destruct (MultilayerPerceptron.forward_layers X training _ g) as [r [ls g']].
  exact H.
Qed.

Lemma _backward_pass_keeps (loss_grad : np.ndarray) :
  keeps (MultilayerPerceptron.validation_state X_val0 recorded)
    (MultilayerPerceptron._backward_pass loss_grad).
Proof.
  intros [self g] H. unfold MultilayerPerceptron._backward_pass.
  destruct (MultilayerPerceptron.backward_layers loss_grad _) as [r ls].
  exact H.
Qed.

Lemma shuffle_data_keeps (X y : np.matrix) :
  keeps (MultilayerPerceptron.validation_state X_val0 recorded)
    (MultilayerPerceptron.shuffle_data X y).
Proof.
  intros [self g] H. unfold MultilayerPerceptron.shuffle_data.
  destruct (shuffle g _) as [idx g']. exact H.
Qed.

Lemma append_training_keeps (e : Q) :
  keeps (MultilayerPerceptron.validation_state X_val0 recorded)
    (MultilayerPerceptron.append_training e).
Proof. intros [self g] H. exact H. Qed.

Lemma batches_keeps (X_ y_ : np.matrix) (splits : list (list nat)) :
  forall batch_t_error, keeps (MultilayerPerceptron.validation_state X_val0 recorded)
    (MultilayerPerceptron.batches X_ y_ splits batch_t_error).
Proof.
  induction splits as [|idx rest IH]; intros acc; cbn [MultilayerPerceptron.batches].
  - apply keeps_ret.
  - apply keeps_bind; [apply keeps_lift|intros X_batch].
    apply keeps_bind; [apply keeps_lift|intros y_batch].
    apply keeps_bind; [apply _forward_pass_keeps|intros y_pred].
    apply keeps_bind; [apply keeps_get|intros [self g]].
    apply keeps_bind; [apply keeps_lift|intros losses].
    apply keeps_bind; [apply keeps_lift|intros loss_grad].
    apply keeps_bind; [apply _backward_pass_keeps|intros _].
    apply IH.
Qed.

(** With no nonzero entry in the stored [X_val], an epoch records no
    validation loss. *)
Lemma epoch_keeps (X y : np.matrix) (n_samples : nat) (n_batches : Z) :
  np.any X_val0 = false ->
  keeps (MultilayerPerceptron.validation_state X_val0 recorded)
    (MultilayerPerceptron.epoch X y n_samples n_batches).
Proof.
  intros Hany. unfold MultilayerPerceptron.epoch.
  apply keeps_bind; [apply shuffle_data_keeps|intros [X_ y_]].
  apply keeps_bind; [apply keeps_lift|intros splits].
  apply keeps_bind; [apply batches_keeps|intros err].
  apply keeps_bind; [apply append_training_keeps|intros _].
  intros [self g] H. unfold bind, get.
  destruct H as [HX Hv]. cbn in HX. rewrite HX, Hany. exact (conj HX Hv).
Qed.

Lemma epochs_keeps (n : nat) (X y : np.matrix) (n_samples : nat) (n_batches : Z) :
  np.any X_val0 = false ->
  keeps (MultilayerPerceptron.validation_state X_val0 recorded)
    (MultilayerPerceptron.epochs n X y n_samples n_batches).
Proof.
  intros Hany. induction n as [|n IH]; cbn [MultilayerPerceptron.epochs].
  - apply keeps_ret.
  - apply keeps_bind; [now apply epoch_keeps|intros _; exact IH].
Qed.

Lemma fit_keeps (X : np.matrix) (y : list Z) :
  np.any X_val0 = false ->
  keeps (MultilayerPerceptron.validation_state X_val0 recorded)
    (MultilayerPerceptron.fit X y).
Proof.
  intros Hany. unfold MultilayerPerceptron.fit.
  apply keeps_bind; [apply keeps_get|intros [self g]].
  destruct (MultilayerPerceptron.batch_size self =? 0)%Z.
  - apply keeps_raise.
  - now apply epochs_keeps.
Qed.

End Validation.

Lemma shuffle_data_ok (X y : np.matrix) (self : MultilayerPerceptron.t) (g : rng) :
  length y = length X ->
  exists X_ y_,
    MultilayerPerceptron.shuffle_data X y (self, g)
    = (Ok (X_, y_), (self, snd (shuffle g (np.arange (length X)))))
    /\ Permutation X_ X /\ length X_ = length X /\ length y_ = length X.
Proof.
  intros Hy. unfold MultilayerPerceptron.shuffle_data.
  pose proof (shuffle_permutes g (np.arange (length X))) as HP.
  destruct (shuffle g (np.arange (length X))) as [idx g']. cbn [fst snd] in *.
  destruct (take_permutation X HP) as (X_ & EX & HPX & HlX).
  rewrite <- Hy in HP.
  destruct (take_permutation y HP) as (y_ & Ey & _ & Hly).
  exists X_, y_. rewrite EX, Ey. repeat split; [assumption..|lia].
Qed.

(** C10, with the iteration count it needs: when the training set has fewer
    samples than the batch size (and at least one) and the network runs at
    least one iteration, the batch count is 0 and [fit] raises the
    [ValueError] of [np.array_split] in its first epoch, after shuffling
    and before any forward pass: the network is left as it was. *)
Theorem fit_raises_when_samples_do_not_fill_a_batch
    (self : MultilayerPerceptron.t) (X : np.matrix) (y : list Z) (g : rng) :
  0 < length X ->
  (Z.of_nat (length X) < MultilayerPerceptron.batch_size self)%Z ->
  (1 <= MultilayerPerceptron.n_iterations self)%Z ->
  length y = length X ->
  Z.quot (Z.of_nat (length X)) (MultilayerPerceptron.batch_size self) = 0%Z
  /\ MultilayerPerceptron.fit X y (self, g)
     = (Raise ValueError, (self, snd (shuffle g (np.arange (length X))))).
Proof.
  intros Hn Hb Hit Hy.
  assert (Hq : Z.quot (Z.of_nat (length X)) (MultilayerPerceptron.batch_size self) = 0%Z)
    by (apply Z.quot_small; lia).
  split; [exact Hq|].
  unfold MultilayerPerceptron.fit, bind at 1, get.
  destruct (Z.eqb_spec (MultilayerPerceptron.batch_size self) 0) as [E|_]; [lia|].
  rewrite Hq.
  destruct (Z.to_nat (MultilayerPerceptron.n_iterations self)) as [|k] eqn:Ek; [lia|].
  cbn [MultilayerPerceptron.epochs]. unfold bind at 1.
  unfold MultilayerPerceptron.epoch, bind at 1.
  destruct (shuffle_data_ok X (categorical_to_binary y) self g) as (X_ & y_ & E & _).
  { rewrite categorical_to_binary_rows. exact Hy. }
  rewrite E. reflexivity.
Qed.

(** Shuffling and cutting: for a batch size between 1 and the number of
    samples, the shuffled data is a permutation of the data, the index
    array is cut into consecutive splits, and the rows taken split by split
    are the shuffled data. *)
Lemma shuffled_splits (batch_size : Z) (X y : np.matrix) (s : MultilayerPerceptron.t * rng) :
  (0 < batch_size)%Z ->
  (batch_size <= Z.of_nat (length X))%Z ->
  length y = length X ->
  let n := length X in
  let k := Z.to_nat (Z.of_nat n / batch_size) in
  exists X_ y_ splits X_batches y_batches s1,
    MultilayerPerceptron.shuffle_data X y s = (Ok (X_, y_), s1)
    /\ Permutation X_ X
    /\ np.array_split (np.arange n) (Z.quot (Z.of_nat n) batch_size) = Ok splits
    /\ length splits = k
    /\ concat splits = np.arange n
    /\ map (@length nat) splits = repeat (S (n / k)) (n mod k) ++ repeat (n / k) (k - n mod k)
    /\ (forall i, i < n ->
          exists j, (j < length splits /\ In i (nth j splits []))
                    /\ forall j', In i (nth j' splits []) -> j' = j)
    /\ sequence (map (np.take X_) splits) = Ok X_batches
    /\ sequence (map (np.take y_) splits) = Ok y_batches
    /\ concat X_batches = X_
    /\ concat y_batches = y_.
Proof.
  intros Hb Hn Hy n k. destruct s as [self g].
  destruct (shuffle_data_ok X y self g Hy) as (X_ & y_ & E & HP & HlX & Hly).
  rewrite Z.quot_div_nonneg by lia.
  assert (Hk : (0 < Z.of_nat n / batch_size)%Z).
  { apply Z.div_str_pos. unfold n. lia. }
  destruct (array_split_ok (np.arange n) Hk) as (Es & Hlen & Hcat & Hsizes).
  unfold np.arange in Hsizes, Hlen, Hcat, Es. rewrite length_seq in *.
  fold (np.arange n) in *. fold k in Es, Hlen, Hcat, Hsizes.
  set (splits := np.split_sizes (np.arange n)
                   (repeat (S (n / k)) (n mod k) ++ repeat (n / k) (k - n mod k))) in *.
  assert (Hcat' : concat splits = np.arange (length X_)) by (rewrite HlX; exact Hcat).
  assert (Hcaty : concat splits = np.arange (length y_)) by (rewrite Hly; exact Hcat).
  destruct (take_pieces X_ [] splits Hcat') as (Et & Hct).
  destruct (take_pieces y_ [] splits Hcaty) as (Ety & Hcty).
  exists X_, y_, splits, (map (map (fun i => nth i X_ [])) splits),
    (map (map (fun i => nth i y_ [])) splits), (self, snd (shuffle g (np.arange (length X)))).
  repeat split; try assumption.
  intros i Hi.
  assert (Hin : In i (concat splits)).
  { rewrite Hcat. unfold np.arange. apply in_seq. lia. }
  destruct (concat_In_piece _ _ Hin) as (j & Hj & Hij).
  exists j. split; [now split|].
  intros j' Hij'. apply (concat_NoDup_unique splits i); try assumption.
  rewrite Hcat. apply seq_NoDup.
Qed.

(** The loop of an epoch over index splits is the training loop over the
    batches those splits cut out of the shuffled data. *)
Lemma batches_train_the_cut_batches (X_ y_ : np.matrix) (splits : list (list nat)) :
  forall (X_batches y_batches : list np.matrix) (batch_t_error : Q)
         (s : MultilayerPerceptron.t * rng),
    sequence (map (np.take X_) splits) = Ok X_batches ->
    sequence (map (np.take y_) splits) = Ok y_batches ->
    MultilayerPerceptron.batches X_ y_ splits batch_t_error s
    = MultilayerPerceptron.train_batches (combine X_batches y_batches) batch_t_error s.
Proof.
  induction splits as [|idx rest IH]; intros Xb yb acc s HX Hy; cbn [map sequence] in HX, Hy.
  - injection HX as <-. injection Hy as <-. reflexivity.
  - destruct (np.take X_ idx) as [xb|e] eqn:EX; [|discriminate].
    destruct (np.take y_ idx) as [b|e] eqn:Ey; [|discriminate].
    cbn [rbind] in HX, Hy.
    destruct (sequence (map (np.take X_) rest)) as [Xb'|e]; [|discriminate].
    destruct (sequence (map (np.take y_) rest)) as [yb'|e]; [|discriminate].
    cbn [rbind] in HX, Hy. injection HX as <-. injection Hy as <-.
    cbn [MultilayerPerceptron.batches combine MultilayerPerceptron.train_batches].
    rewrite EX, Ey.
    unfold MultilayerPerceptron.batch_step, bind, lift, get, ret.
    destruct (MultilayerPerceptron._forward_pass (np.Arr2 xb) true s)
      as [[y_pred|e] [self1 g1]]; [|reflexivity].
    destruct (loss (MultilayerPerceptron.cross_ent self1) (np.Arr2 b) y_pred)
      as [losses|e]; [|reflexivity].
    destruct (loss_gradient (MultilayerPerceptron.cross_ent self1) (np.Arr2 b) y_pred)
      as [loss_grad|e]; [|reflexivity].
    destruct (MultilayerPerceptron._backward_pass loss_grad (self1, g1))
      as [[[]|e] s2]; [|reflexivity].
    apply (IH Xb' yb'); reflexivity.
Qed.

(** C6, for a batch size of at least 1: [fit] with [1 <= batch_size <=
    n_samples] runs its epochs with the batch count [n_samples / batch_size]
    rounded down, and every epoch, from whatever state it starts, shuffles
    the data into a permutation of the training set, cuts the indices
    [0..n-1] into exactly that many consecutive splits (which together are
    [0..n-1] in order; the first [n mod k] hold one index more than the
    other [k - n mod k], so the remainder is spread and none is dropped;
    every index lies in exactly one split), and trains on the batches
    [X_[idx]], [y_[idx]] of these splits, in order, one forward and backward
    pass each; laid end to end the batches are the shuffled data. *)
Theorem epoch_splits_partition_the_shuffled_samples
    (self : MultilayerPerceptron.t) (X : np.matrix) (labels : list Z) (g : rng) :
  (1 <= MultilayerPerceptron.batch_size self)%Z ->
  (MultilayerPerceptron.batch_size self <= Z.of_nat (length X))%Z ->
  length labels = length X ->
  let n := length X in
  let y := categorical_to_binary labels in
  let n_batches := Z.quot (Z.of_nat n) (MultilayerPerceptron.batch_size self) in
  let k := Z.to_nat (Z.of_nat n / MultilayerPerceptron.batch_size self) in
  MultilayerPerceptron.fit X labels (self, g)
  = MultilayerPerceptron.epochs (Z.to_nat (MultilayerPerceptron.n_iterations self))
      X y n n_batches (self, g)
  /\ forall s : MultilayerPerceptron.t * rng,
      exists X_ y_ splits X_batches y_batches s1,
        MultilayerPerceptron.shuffle_data X y s = (Ok (X_, y_), s1)
        /\ Permutation X_ X
        /\ np.array_split (np.arange n) n_batches = Ok splits
        /\ length splits = k
        /\ concat splits = np.arange n
        /\ map (@length nat) splits
           = repeat (S (n / k)) (n mod k) ++ repeat (n / k) (k - n mod k)
        /\ (forall i, i < n ->
              exists j, (j < length splits /\ In i (nth j splits []))
                        /\ forall j', In i (nth j' splits []) -> j' = j)
        /\ sequence (map (np.take X_) splits) = Ok X_batches
        /\ sequence (map (np.take y_) splits) = Ok y_batches
        /\ concat X_batches = X_
        /\ concat y_batches = y_
        /\ Permutation (concat X_batches) X
        /\ MultilayerPerceptron.epoch X y n n_batches s
           = bind (MultilayerPerceptron.train_batches (combine X_batches y_batches) 0%Q)
                  (fun batch_t_error =>
                     MultilayerPerceptron.epoch_end batch_t_error n_batches) s1.
Proof.
  intros Hb Hn Hy n y n_batches k. split.
  - unfold MultilayerPerceptron.fit, bind, get.
    destruct (Z.eqb_spec (MultilayerPerceptron.batch_size self) 0) as [E|_]; [lia|].
    reflexivity.
  - intros s.
    assert (Hy' : length y = length X).
    { unfold y. rewrite categorical_to_binary_rows. exact Hy. }
    destruct (@shuffled_splits (MultilayerPerceptron.batch_size self) X y s
                ltac:(lia) Hn Hy')
      as (X_ & y_ & splits & Xb & yb & s1 & E & HP & Es & Hlen & Hcat & Hsz & Hone
          & EX & EY & HcX & HcY).
    exists X_, y_, splits, Xb, yb, s1.
    repeat split; try assumption.
    + rewrite HcX. exact HP.
    + unfold MultilayerPerceptron.epoch. unfold bind at 1. rewrite E. cbv beta iota.
      unfold bind at 1, lift at 1. unfold n_batches, n. rewrite Es. cbv beta iota.
      unfold bind at 1.
      rewrite (batches_train_the_cut_batches X_ y_ splits 0%Q s1 EX EY).
      reflexivity.
Qed.

(** C3, the guard the code uses: [fit] decides whether to record a
    validation loss by [self.X_val.any()].  When the stored [X_val] has no
    nonzero entry, also when validation data was supplied, [fit] records no
    validation loss, whatever the training set and the iteration count. *)
Theorem fit_records_no_validation_loss_when_X_val_is_all_zero
    (self : MultilayerPerceptron.t) (X : np.matrix) (y : list Z) (g : rng) :
  np.any (MultilayerPerceptron.X_val self) = false ->
  MultilayerPerceptron.validation
    (MultilayerPerceptron.errors (fst (snd (MultilayerPerceptron.fit X y (self, g)))))
  = MultilayerPerceptron.validation (MultilayerPerceptron.errors self).
Proof.
  intros Hany.
  apply (@fit_keeps (MultilayerPerceptron.X_val self)
           (MultilayerPerceptron.validation (MultilayerPerceptron.errors self))
           X y Hany (self, g)).
  split; reflexivity.
Qed.

End FitProperties.

(** The networks of the scenarios are what the constructor and [add] build:
    [MultilayerPerceptron(1, 1, optimizer, SquareLoss, (X_val, y_val))]
    followed by [add(DropoutLayer(0.5))]. *)
Lemma dropout_net_is_constructed (X_val : np.matrix) (y_val : list Z) (u : Q) (g : nat) :
  exists net layer,
    MultilayerPerceptron.__init__ (C := Scenario.collaborators) 1 1 (1 # 100)
      Scenario.SquareLoss (Some (X_val, y_val)) u = Ok net
    /\ DropoutLayer.__init__ (1 # 2) = Ok layer
    /\ MultilayerPerceptron.add (MultilayerPerceptron.Dropout layer) (net, g)
       = (Ok tt, (Scenario.dropout_net X_val y_val, g)).
Proof.
  do 2 eexists. repeat split.
Qed.

(** C10 at a concrete call: one sample, batch size 5, one iteration. *)
Lemma fit_raises_when_samples_do_not_fill_a_batch_witness :
  let net := Scenario.network 1 5
               [MultilayerPerceptron.Dropout (DropoutLayer.mk (1 # 2) None)]
               (np.Arr0 0) (np.Arr0 0) in
  Z.quot 1 5 = 0%Z
  /\ MultilayerPerceptron.fit [[1%Q]] [0%Z] (net, 0) = (Raise ValueError, (net, 1)).
Proof.
  intros net.
  apply (@fit_raises_when_samples_do_not_fill_a_batch Scenario.collaborators
           net [[1%Q]] [0%Z] 0); cbn; lia.
Defined.

(** C10 fails as stated: with an iteration count of 0 the loop body never
    runs, and [fit] on one sample with batch size 5 returns normally. *)
Lemma fit_returns_without_iterations :
  let net := Scenario.network 0 5
               [MultilayerPerceptron.Dropout (DropoutLayer.mk (1 # 2) None)]
               (np.Arr0 0) (np.Arr0 0) in
  let X := [[1%Q]] in
  0 < length X
  /\ (Z.of_nat (length X) < MultilayerPerceptron.batch_size net)%Z
  /\ Z.quot (Z.of_nat (length X)) (MultilayerPerceptron.batch_size net) = 0%Z
  /\ MultilayerPerceptron.fit X [0%Z] (net, 0) = (Ok tt, (net, 0)).
Proof.
  cbn. repeat split; lia.
Qed.

(** C6 at a concrete epoch: seven samples, batch size 3: two splits, of
    four and three indices, and the epoch trains on the two batches they cut
    out. *)
Lemma epoch_splits_partition_the_shuffled_samples_witness :
  let net := Scenario.network 1 3
               [MultilayerPerceptron.Dropout (DropoutLayer.mk (1 # 2) None)]
               (np.Arr0 0) (np.Arr0 0) in
  let X := map (fun i => [inject_Z (Z.of_nat i)]) (seq 0 7) in
  let y := Scenario.one_hot [0; 0; 0; 0; 0; 0; 0]%Z in
  exists splits X_batches y_batches s1,
    np.array_split (np.arange 7) (Z.quot 7 3) = Ok splits
    /\ length splits = 2
    /\ concat splits = np.arange 7
    /\ map (@length nat) splits = [4; 3]
    /\ Permutation (concat X_batches) X
    /\ MultilayerPerceptron.epoch X y 7 (Z.quot 7 3) (net, 0)
       = bind (MultilayerPerceptron.train_batches (combine X_batches y_batches) 0%Q)
              (fun batch_t_error => MultilayerPerceptron.epoch_end batch_t_error (Z.quot 7 3))
              s1.
Proof.
  intros net X y.
  destruct (@epoch_splits_partition_the_shuffled_samples Scenario.collaborators
              net X [0; 0; 0; 0; 0; 0; 0]%Z 0) as [_ H];
    [cbn; lia | cbn; lia | reflexivity |].
  destruct (H (net, 0))
    as (X_ & y_ & splits & Xb & yb & s1 & _ & _ & Es & Hl & Hc & Hs & _ & _ & _ & _ & _
        & HP & Ee).
  exists splits, Xb, yb, s1. repeat split; assumption.
Defined.

(** C6 fails as stated, without a lower bound on the batch size: with three
    samples and a batch size of -1 the number of samples is not below the
    batch size, the batch count is -3, [np.array_split] raises, and the
    epoch that [fit] starts ends there, with no split and no batch. *)
Lemma fit_does_not_partition_for_negative_batch_size :
  let net := Scenario.network 1 (-1)
               [MultilayerPerceptron.Dropout (DropoutLayer.mk (1 # 2) None)]
               (np.Arr0 0) (np.Arr0 0) in
  let X := [[1]; [2]; [3]]%Q in
  (MultilayerPerceptron.batch_size net <= Z.of_nat (length X))%Z
  /\ Z.quot (Z.of_nat (length X)) (MultilayerPerceptron.batch_size net) = (-3)%Z
  /\ np.array_split (np.arange (length X))
       (Z.quot (Z.of_nat (length X)) (MultilayerPerceptron.batch_size net))
     = Raise ValueError
  /\ MultilayerPerceptron.fit X [0; 0; 0]%Z (net, 0) = (Raise ValueError, (net, 1)).
Proof.
  cbn. repeat split. lia.
Qed.

(** C3 at a concrete call: validation data [([[0],[0]], [0,0])] was
    supplied, one epoch completes, and no validation loss is recorded. *)
Lemma fit_records_no_validation_loss_when_X_val_is_all_zero_witness :
  let net := Scenario.dropout_net [[0]; [0]]%Q [0; 0]%Z in
  let after := MultilayerPerceptron.fit [[1%Q]] [0%Z] (net, 0) in
  MultilayerPerceptron.validation (MultilayerPerceptron.errors (fst (snd after))) = [].
Proof.
  intros net after.
  apply (@fit_records_no_validation_loss_when_X_val_is_all_zero Scenario.collaborators
           net [[1%Q]] [0%Z] 0).
  reflexivity.
Defined.

(** The same call returns normally and records the training loss of its one
    epoch. *)
Lemma fit_completes_an_epoch_without_validation_entry :
  let net := Scenario.dropout_net [[0]; [0]]%Q [0; 0]%Z in
  let after := MultilayerPerceptron.fit [[1%Q]] [0%Z] (net, 0) in
  fst after = Ok tt
  /\ length (MultilayerPerceptron.training (MultilayerPerceptron.errors (fst (snd after)))) = 1
  /\ MultilayerPerceptron.validation (MultilayerPerceptron.errors (fst (snd after))) = [].
Proof.
  repeat split.
Qed.

(** C2, evaluated: one Dropout layer with [p = 1/2], validation inputs
    [[2],[4]], training set [[1]], one epoch.  The validation pass draws a
    mask of the shape of the validation inputs and caches it in the layer
    (the generator ends at 4 draws: one shuffle, one training element, two
    validation elements), and the recorded validation loss, 1/2, is that of
    the masked output [[2],[0]]; inference-mode scaling gives [[2/2],[4/2]],
    that is [[1],[2]]. *)
Theorem fit_validation_pass_draws_a_dropout_mask :
  let net := Scenario.dropout_net [[2]; [4]]%Q [0; 0]%Z in
  let after := MultilayerPerceptron.fit [[1%Q]] [0%Z] (net, 0) in
  fst after = Ok tt
  /\ MultilayerPerceptron.layers (fst (snd after))
     = [MultilayerPerceptron.Dropout
          (DropoutLayer.mk (1 # 2) (Some (np.Arr2 [[1]; [0]]%Q)))]
  /\ snd (snd after) = 4
  /\ map Qred (MultilayerPerceptron.validation (MultilayerPerceptron.errors (fst (snd after))))
     = [1 # 2]
  /\ fst (DropoutLayer.forward_pass (C := Scenario.collaborators)
            (np.Arr2 [[2]; [4]]%Q) false (DropoutLayer.mk (1 # 2) None, 2))
     = Ok (np.Arr2 [[2 # 2]; [4 # 2]]).
Proof.
  repeat split.
Qed.

(** ** Gradient boosting *)

Lemma Qopp_minus (y p : Q) : Qopp (Qminus y p) = Qminus p y.
Proof.
  destruct y as [yn yd], p as [pn pd].
  unfold Qminus, Qplus, Qopp; cbn [Qnum Qden].
  f_equal; [ring | apply Pos.mul_comm].
Qed.

Lemma zip_with_length (A B D : Type) (f : A -> B -> D) (u : list A) :
  forall v, length v = length u -> length (np.zip_with f u v) = length u.
Proof.
  induction u as [|a u IH]; intros [|b v] H; try discriminate; cbn; [reflexivity|].
  f_equal. apply IH. now injection H.
Qed.

Section BoostingProperties.
Context {R : RegressionTrees}.

(** [-(y - y_pred)] is [y_pred - y], entry by entry. *)
Lemma residuals_prediction_minus_target (y : np.vector) :
  forall y_pred, GradientBoostingRegressor.residuals y y_pred = np.zip_with Qminus y_pred y.
Proof.
  unfold GradientBoostingRegressor.residuals.
  induction y as [|a y IH]; intros [|b p]; cbn; try reflexivity.
  now rewrite Qopp_minus, IH.
Qed.

Lemma isub_scaled (learning_rate : Q) (y_pred : np.vector) :
  forall tree_pred,
    length tree_pred = length y_pred ->
    np.isub y_pred (map (Qmult learning_rate) tree_pred)
    = Ok (GradientBoostingRegressor.subtract_scaled learning_rate y_pred tree_pred).
Proof.
  intros tree_pred H. unfold np.isub. rewrite length_map, H, Nat.eqb_refl. f_equal.
  unfold GradientBoostingRegressor.subtract_scaled. clear H.
  revert tree_pred. induction y_pred as [|a u IH]; intros [|b v]; cbn; try reflexivity.
  now rewrite IH.
Qed.

Section OnePredictionPerRow.
Variables (learning_rate : Q) (X : np.matrix) (y : np.vector).
Hypothesis predictions_per_row : forall tree, length (tree_predict tree X) = length X.

Lemma fit_trees_refines_spec (trees : list RegressionTree) :
  forall (y_pred : np.vector) (fitted : list RegressionTree),
    length y_pred = length X ->
    exists rest,
      GradientBoostingRegressor.fit_trees learning_rate X y y_pred trees
      = (Ok (fst (fold_left (GradientBoostingRegressor.spec_round learning_rate X y)
                            trees (y_pred, fitted))), rest)
      /\ snd (fold_left (GradientBoostingRegressor.spec_round learning_rate X y)
                        trees (y_pred, fitted)) = fitted ++ rest.
Proof.
  induction trees as [|tree trees IH]; intros y_pred fitted Hlen.
  - exists []. cbn. now rewrite app_nil_r.
  - cbn [GradientBoostingRegressor.fit_trees fold_left].
    unfold GradientBoostingRegressor.spec_round at 2 4.
    rewrite residuals_prediction_minus_target.
    set (fitted_tree := tree_fit tree X (np.zip_with Qminus y_pred y)).
    rewrite isub_scaled by (rewrite predictions_per_row; now symmetry).
    destruct (IH (GradientBoostingRegressor.subtract_scaled learning_rate y_pred
                    (tree_predict fitted_tree X)) (fitted ++ [fitted_tree]))
      as (rest & E & Hs).
    { unfold GradientBoostingRegressor.subtract_scaled.
      rewrite zip_with_length; [exact Hlen|]. now rewrite predictions_per_row. }
    rewrite E. exists (fitted_tree :: rest). split; [reflexivity|].
    rewrite Hs, <- app_assoc. reflexivity.
Qed.

Lemma predict_trees_refines_spec (trees : list RegressionTree) :
  forall y_pred : np.vector,
    length y_pred = length X ->
    GradientBoostingRegressor.predict_trees learning_rate X y_pred trees
    = Ok (fold_left (fun prediction tree =>
                       GradientBoostingRegressor.subtract_scaled learning_rate prediction
                         (tree_predict tree X)) trees y_pred).
Proof.
  induction trees as [|tree trees IH]; intros y_pred Hlen; [reflexivity|].
  cbn [GradientBoostingRegressor.predict_trees fold_left].
  rewrite isub_scaled by (rewrite predictions_per_row; now symmetry).
  cbn [rbind]. apply IH.
  unfold GradientBoostingRegressor.subtract_scaled.
  rewrite zip_with_length; [exact Hlen|]. now rewrite predictions_per_row.
Qed.

End OnePredictionPerRow.

(** C9: for trees that predict one value for each row of [X] and a target
    with one entry for each row, [fit] is the boosting loop of the
    specification: from the all-zero prediction, each tree in sequence is
    fitted to [prediction - target] and [learning_rate * tree_prediction] is
    subtracted from the running prediction; [predict] repeats the subtraction
    from zero over the trees as they are; and a regressor built with
    [n_estimators = 0] has no trees, so that its [predict] returns the
    all-zero vector for every input. *)
Theorem boosting_follows_the_specified_accumulation
    (self : GradientBoostingRegressor.t) (X : np.matrix) (y : np.vector) :
  (forall tree, length (tree_predict tree X) = length X) ->
  length y = length X ->
  let learning_rate := GradientBoostingRegressor.learning_rate self in
  let spec := GradientBoostingRegressor.spec_fit learning_rate X y
                (GradientBoostingRegressor.trees self) in
  GradientBoostingRegressor.fit_trees learning_rate X y (np.zeros (length y))
    (GradientBoostingRegressor.trees self) = (Ok (fst spec), snd spec)
  /\ GradientBoostingRegressor.fit X y self
     = (Ok tt, GradientBoostingRegressor.set_trees self (snd spec))
  /\ GradientBoostingRegressor.predict self X
     = Ok (GradientBoostingRegressor.spec_predict learning_rate X
             (GradientBoostingRegressor.trees self))
  /\ (forall (rate : Q) (max_features : option Z) (min_samples_split : Z)
             (min_var_red : Q) (max_depth : Z) (debug : bool) (X' : np.matrix),
        exists regressor,
          GradientBoostingRegressor.__init__ 0 rate max_features min_samples_split
            min_var_red max_depth debug = Ok regressor
          /\ GradientBoostingRegressor.trees regressor = []
          /\ GradientBoostingRegressor.predict regressor X' = Ok (np.zeros (length X'))).
Proof.
  intros Hpred Hy learning_rate spec.
  assert (Hz : length (np.zeros (length y)) = length X).
  { unfold np.zeros. now rewrite repeat_length. }
  destruct (fit_trees_refines_spec learning_rate X y Hpred
              (GradientBoostingRegressor.trees self) (np.zeros (length y)) [] Hz)
    as (rest & E & Hs).
  cbn [app] in Hs.
  assert (E' : GradientBoostingRegressor.fit_trees learning_rate X y (np.zeros (length y))
                 (GradientBoostingRegressor.trees self) = (Ok (fst spec), snd spec))
    by (rewrite E; f_equal; symmetry; exact Hs).
  split; [exact E'|]. split; [|split].
  - unfold GradientBoostingRegressor.fit. fold learning_rate. rewrite E'. reflexivity.
  - unfold GradientBoostingRegressor.predict, GradientBoostingRegressor.spec_predict.
    apply predict_trees_refines_spec; [exact Hpred|].
    unfold np.zeros. now rewrite repeat_length.
  - intros. eexists. repeat split.
Qed.

End BoostingProperties.

(** C9 at a concrete regressor: two trees that predict the mean of what
    they were fitted to, learning rate 1/2, inputs [[1],[2]], targets [1,3]. *)
Lemma boosting_follows_the_specified_accumulation_witness :
  let self := GradientBoostingRegressor.mk (R := Scenario.mean_trees)
                2 (1 # 2) None 10 (1 # 10000) 10 false [0; 0]%Q in
  let X := [[1]; [2]]%Q in
  let y := [1; 3]%Q in
  let spec := GradientBoostingRegressor.spec_fit (R := Scenario.mean_trees) (1 # 2) X y
                [0; 0]%Q in
  GradientBoostingRegressor.fit X y self
  = (Ok tt, GradientBoostingRegressor.set_trees self (snd spec))
  /\ map Qred (snd spec) = [-2; -1]%Q
  /\ map Qred (fst spec) = [3 # 2; 3 # 2]
  /\ GradientBoostingRegressor.predict self X
     = Ok (GradientBoostingRegressor.spec_predict (R := Scenario.mean_trees) (1 # 2) X
             [0; 0]%Q).
Proof.
  intros self X y spec.
  destruct (@boosting_follows_the_specified_accumulation Scenario.mean_trees self X y)
    as (_ & Hfit & Hpredict & _); [reflexivity | reflexivity |].
  split; [exact Hfit|]. split; [reflexivity|]. split; [reflexivity|]. exact Hpredict.
Defined.

(** * Further properties of the code *)

(** ** Shapes of array operations *)

Lemma sequence_zip_with_ok (f : Q -> Q -> Q) (u : np.vector) :
  forall v, sequence (np.zip_with (fun x y => Ok (f x y)) u v) = Ok (np.zip_with f u v).
Proof.
  induction u as [|a u IH]; intros [|b v]; cbn; try reflexivity.
  now rewrite IH.
Qed.

Lemma broadcast_rows_same_length (f : Q -> Q -> Q) (u v : np.vector) :
  length u = length v ->
  np.broadcast (fun x y => Ok (f x y)) 0%Q u v = Ok (np.zip_with f u v).
Proof.
  intros H. unfold np.broadcast. rewrite H, Nat.eqb_refl. apply sequence_zip_with_ok.
Qed.

(** Adding a row [b] to a matrix whose rows are as long as [b]. *)
Lemma elementwise_row_broadcast (f : Q -> Q -> Q) (z : np.matrix) (b : np.vector) :
  Forall (fun r => length r = length b) z ->
  np.elementwise f z [b] = Ok (map (fun r => np.zip_with f r b) z).
Proof.
  intros Hz. unfold np.elementwise, np.broadcast at 1. cbn [length hd].
  assert (Hmap : sequence (map (fun x => np.broadcast (fun x0 y => Ok (f x0 y)) 0%Q x b) z)
                 = Ok (map (fun r => np.zip_with f r b) z)).
  { apply sequence_map_ok. revert Hz. apply Forall_impl. intros r Hr.
    now apply broadcast_rows_same_length. }
  destruct z as [|r [|r' z']].
  - reflexivity.
  - cbn [length Nat.eqb np.zip_with]. exact Hmap.
  - cbn [length Nat.eqb]. exact Hmap.
Qed.

(** Two matrices of the same shape combine entry by entry. *)
Lemma elementwise_same_shape (f : Q -> Q -> Q) (a : np.matrix) :
  forall b, Forall2 (fun r r' => length r = length r') a b ->
            np.elementwise f a b = Ok (np.zip_with (np.zip_with f) a b).
Proof.
  intros b H. unfold np.elementwise, np.broadcast at 1.
  rewrite (Forall2_length H), Nat.eqb_refl.
  induction H as [|r r' a b Hr _ IH]; [reflexivity|].
  cbn [np.zip_with sequence]. rewrite (broadcast_rows_same_length f _ _ Hr), IH.
  reflexivity.
Qed.

Lemma zip_with_length_min (A B D : Type) (f : A -> B -> D) (u : list A) :
  forall v, length (np.zip_with f u v) = Nat.min (length u) (length v).
Proof.
  induction u as [|a u IH]; intros [|b v]; cbn; try reflexivity. now rewrite IH.
Qed.

Lemma T_length (m : np.matrix) (r : np.vector) :
  length (np.T (r :: m)) = length r.
Proof. unfold np.T. now rewrite length_map, length_seq. Qed.

(** ** Dense layers: shapes and errors *)

Section DenseLayerFacts.
Context {C : Collaborators}.

(** X1: a Dense layer whose weights were never set (no [initialize], as
    [DenseLayer.__init__] leaves it) raises [TypeError] in [forward_pass],
    and by then it has already cached the input. *)
Theorem forward_pass_before_initialize_raises
    (self : DenseLayer.t) (layer_input : np.ndarray) (training : bool) :
  DenseLayer.W self = None ->
  DenseLayer.forward_pass layer_input training self
  = (Raise TypeError, DenseLayer.set_layer_input self (Some layer_input)).
Proof.
  intros HW. rewrite dense_forward_pass_unfold.
  unfold DenseLayer.pre_activation. now rewrite HW.
Qed.

(** X2: with weights of shape [(n_inputs, n_units)], [n_inputs >= 1], a bias
    row of [n_units] entries and a batch whose rows have [n_inputs] entries,
    [forward_pass] does not raise: it returns the activation of a
    pre-activation array with one row for each sample and [n_units] entries
    in each row, and caches the batch. *)
Theorem forward_pass_shape
    (self : DenseLayer.t) (X : np.matrix) (training : bool)
    (W0 : np.matrix) (b : np.vector) :
  DenseLayer.W self = Some W0 ->
  DenseLayer.wb self = Some [b] ->
  W0 <> [] ->
  Forall (fun r => length r = length b) W0 ->
  Forall (fun r => length r = length W0) X ->
  exists z,
    DenseLayer.pre_activation self (np.Arr2 X) = Ok z
    /\ length z = length X
    /\ Forall (fun r => length r = length b) z
    /\ DenseLayer.forward_pass (np.Arr2 X) training self
       = (Ok (function (DenseLayer.activation self) z),
          DenseLayer.set_layer_input self (Some (np.Arr2 X))).
Proof.
  intros HW Hb Hne HWrows HX.
  assert (Hmm : Forall (fun r => length r = length b) (np.matmul X W0)).
  { unfold np.matmul. apply Forall_forall. intros r Hr.
    apply in_map_iff in Hr as (row & <- & _). rewrite length_map.
    destruct W0 as [|w W0']; [contradiction|]. rewrite T_length.
    now inversion HWrows. }
  exists (map (fun r => np.zip_with Qplus r b) (np.matmul X W0)).
  assert (Hpre : DenseLayer.pre_activation self (np.Arr2 X)
                 = Ok (map (fun r => np.zip_with Qplus r b) (np.matmul X W0))).
  { unfold DenseLayer.pre_activation. rewrite HW, Hb. unfold np.dot.
    replace (forallb (fun row => length row =? length W0) X) with true.
    - cbn [rbind]. now apply elementwise_row_broadcast.
    - symmetry. apply forallb_forall. intros r Hr. apply Nat.eqb_eq.
      revert r Hr. now apply Forall_forall. }
  repeat split.
  - exact Hpre.
  - unfold np.matmul. now rewrite !length_map.
  - apply Forall_forall. intros r Hr. apply in_map_iff in Hr as (r0 & <- & Hr0).
    rewrite zip_with_length_min. rewrite Forall_forall in Hmm.
    rewrite (Hmm r0 Hr0). apply Nat.min_id.
  - rewrite dense_forward_pass_unfold, Hpre. reflexivity.
Qed.

(** X3: a batch with a row whose length is not the number of rows of [W]
    makes [forward_pass] raise [ValueError]; the batch is cached all the
    same. *)
Theorem forward_pass_rejects_wrong_width
    (self : DenseLayer.t) (X : np.matrix) (training : bool) (W0 : np.matrix) :
  DenseLayer.W self = Some W0 ->
  Exists (fun r => length r <> length W0) X ->
  DenseLayer.forward_pass (np.Arr2 X) training self
  = (Raise ValueError, DenseLayer.set_layer_input self (Some (np.Arr2 X))).
Proof.
  intros HW HX. rewrite dense_forward_pass_unfold.
  unfold DenseLayer.pre_activation. rewrite HW. unfold np.dot.
  replace (forallb (fun row => length row =? length W0) X) with false; [reflexivity|].
  symmetry. apply not_true_is_false. intros Hall.
  rewrite forallb_forall in Hall. apply Exists_exists in HX as (r & Hr & Hne).
  apply Hne, Nat.eqb_eq, Hall, Hr.
Qed.

(** X4: [backward_pass] on a layer that has seen no forward pass raises
    [AttributeError] and changes nothing: no weight, no bias, no optimizer. *)
Theorem backward_pass_without_forward_raises
    (self : DenseLayer.t) (acc_grad : np.ndarray) :
  DenseLayer.layer_input self = None ->
  DenseLayer.backward_pass acc_grad self = (Raise AttributeError, self).
Proof.
  intros H. unfold DenseLayer.backward_pass, bind, get, lift, DenseLayer.layer_grad.
  now rewrite H.
Qed.

End DenseLayerFacts.

Section DenseUpdateFacts.
Context {C : Collaborators}.

(** X5: a [backward_pass] that returns has stepped each of the two
    optimizers exactly once, each on its own parameter with its own
    gradient: [W] with [layer_input.T . layer_grad] through [W_opt], [wb]
    with the column sums of [layer_grad] through [wb_opt].  The cached
    input, the activation, the sizes and the [initialized] flag are as
    before. *)
Theorem backward_pass_updates_each_parameter_once
    (self self' : DenseLayer.t) (acc_grad : np.ndarray) (out : np.matrix) :
  DenseLayer.backward_pass acc_grad self = (Ok out, self') ->
  exists layer_grad grad_w W0 b0 W_opt wb_opt,
    DenseLayer.layer_grad self acc_grad = Ok layer_grad
    /\ DenseLayer.grad_w self layer_grad = Ok grad_w
    /\ DenseLayer.W self = Some W0 /\ DenseLayer.wb self = Some b0
    /\ DenseLayer.W_opt self = Some W_opt /\ DenseLayer.wb_opt self = Some wb_opt
    /\ self' = DenseLayer.mk (DenseLayer.activation self) (DenseLayer.layer_input self)
                 (DenseLayer.initialized self) (DenseLayer.n_inputs self)
                 (DenseLayer.n_units self)
                 (Some (fst (update W_opt W0 grad_w)))
                 (Some (fst (update wb_opt b0 (np.sum_axis0 layer_grad))))
                 (Some (snd (update W_opt W0 grad_w)))
                 (Some (snd (update wb_opt b0 (np.sum_axis0 layer_grad)))).
Proof.
  unfold DenseLayer.backward_pass.
  unfold bind at 1, get at 1. unfold bind at 1, lift at 1.
  destruct (DenseLayer.layer_grad self acc_grad) as [lg|e] eqn:Elg; [|discriminate].
  unfold bind at 1, lift at 1.
  destruct (DenseLayer.grad_w self lg) as [gw|e] eqn:Egw; [|discriminate].
  unfold bind at 1.
  destruct (DenseLayer.update_W gw self) as [[[]|e] s1] eqn:E1; [|discriminate].
  unfold bind at 1.
  destruct (DenseLayer.update_wb (DenseLayer.grad_wb lg) s1) as [[[]|e] s2] eqn:E2;
    [|discriminate].
  apply update_W_inv in E1. destruct E1 as (opt & W0 & Hopt & HW & ->).
  apply update_wb_inv in E2. destruct E2 as (optb & b0 & Hoptb & Hb & ->).
  cbn in Hoptb, Hb.
  unfold bind, get, attr, ret, raise, lift.
  cbn [DenseLayer.W DenseLayer.set_W DenseLayer.set_wb DenseLayer.set_wb_opt
       DenseLayer.set_W_opt].
  intros H. injection H as _ <-.
  exists lg, gw, W0, b0, opt, optb. repeat split; try assumption.
Qed.

End DenseUpdateFacts.

(** X5 at the layer of the worked example, with learning rate 1: the bias
    moves from 0 to -1 and the weights from [[1],[1]] to [[0],[-1]]. *)
Lemma backward_pass_updates_each_parameter_once_witness :
  let self := DenseLayer.set_layer_input (Scenario.dense_2_1 1)
                (Some (np.Arr2 [[1; 2]]%Q)) in
  let self' := snd (DenseLayer.backward_pass (np.Arr2 [[1%Q]]) self) in
  DenseLayer.W self' = Some [[0]; [-1]]%Q
  /\ DenseLayer.wb self' = Some [[-1]]%Q
  /\ DenseLayer.layer_input self' = Some (np.Arr2 [[1; 2]]%Q).
Proof.
  intros self self'.
  destruct (@backward_pass_updates_each_parameter_once Scenario.collaborators
              self self' (np.Arr2 [[1%Q]]) [[0; -1]]%Q eq_refl)
    as (lg & gw & W0 & b0 & oW & ob & Elg & Egw & EW & Eb & EoW & Eob & E).
  rewrite E. cbn [DenseLayer.W DenseLayer.wb DenseLayer.layer_input].
  injection EW as <-. injection Eb as <-. injection EoW as <-. injection Eob as <-.
  injection Elg as <-. injection Egw as <-. repeat split.
Defined.

(** ** Initialization and [add] *)

Section InitializeFacts.
Context {C : Collaborators}.

Lemma draws_length (n : nat) : forall g, length (fst (random.draws n g)) = n.
Proof.
  induction n as [|n IH]; intros g; cbn; [reflexivity|].
  destruct (uniform g) as [x g1]. specialize (IH g1).
  destruct (random.draws n g1) as [v g2]. cbn in *. now rewrite IH.
Qed.

Lemma random_shape (rows cols : nat) :
  forall g, length (fst (random.random rows cols g)) = rows
            /\ Forall (fun r => length r = cols) (fst (random.random rows cols g)).
Proof.
  induction rows as [|rows IH]; intros g; cbn; [split; [reflexivity|constructor]|].
  pose proof (draws_length cols g) as Hd.
  destruct (random.draws cols g) as [r g1]. destruct (IH g1) as [Hl Hf].
  destruct (random.random rows cols g1) as [m g2]. cbn in *.
  split; [now rewrite Hl|now constructor].
Qed.

(** The four ways [initialize] can end. *)
Lemma initialize_outcome
    (self : DenseLayer.t) (optimizer : Optimizer) (g : rng) :
  ((DenseLayer.n_inputs self < 0)%Z
   /\ DenseLayer.initialize optimizer (self, g) = (Raise ValueError, (self, g)))
  \/ ((0 <= DenseLayer.n_inputs self)%Z
      /\ Qeq_bool (sqrt (inject_Z (DenseLayer.n_inputs self))) 0 = true
      /\ DenseLayer.initialize optimizer (self, g) = (Raise ZeroDivisionError, (self, g)))
  \/ ((0 <= DenseLayer.n_inputs self)%Z
      /\ Qeq_bool (sqrt (inject_Z (DenseLayer.n_inputs self))) 0 = false
      /\ (DenseLayer.n_units self < 0)%Z
      /\ DenseLayer.initialize optimizer (self, g) = (Raise ValueError, (self, g)))
  \/ ((0 <= DenseLayer.n_inputs self)%Z
      /\ Qeq_bool (sqrt (inject_Z (DenseLayer.n_inputs self))) 0 = false
      /\ (0 <= DenseLayer.n_units self)%Z
      /\ exists W0 wb0 g',
           DenseLayer.initialize optimizer (self, g)
           = (Ok tt,
              (DenseLayer.mk (DenseLayer.activation self) (DenseLayer.layer_input self)
                 (DenseLayer.initialized self) (DenseLayer.n_inputs self)
                 (DenseLayer.n_units self)
                 (Some W0) (Some wb0) (Some optimizer) (Some optimizer), g'))).
Proof.
  unfold DenseLayer.initialize.
  destruct (Z.ltb_spec (DenseLayer.n_inputs self) 0) as [Hi|Hi]; [left; auto|].
  destruct (Qeq_bool (sqrt (inject_Z (DenseLayer.n_inputs self))) 0) eqn:Hroot;
    [right; left; auto|].
  destruct (Z.ltb_spec (DenseLayer.n_units self) 0) as [Hu|Hu];
    [right; right; left; auto|].
  right; right; right. repeat split; try assumption.
  destruct (random.random (Z.to_nat (DenseLayer.n_inputs self))
              (Z.to_nat (DenseLayer.n_units self)) g) as [r1 g1].
  cbn [DenseLayer.n_units DenseLayer.set_W].
  destruct (random.random 1 (Z.to_nat (DenseLayer.n_units self)) g1) as [r2 g2].
  do 3 eexists. reflexivity.
Qed.

(** X6: for sizes that are not negative and [math.sqrt(n_inputs)] not zero,
    [initialize] gives the layer a weight matrix with [n_inputs] rows of
    [n_units] entries and a bias of one row of [n_units] entries, and a copy
    of the given optimizer for each; it leaves the [initialized] flag as it
    was (the constructor set it to [False], and nothing in the file sets
    it), and also the cached input, the activation and the sizes. *)
Theorem initialize_shapes
    (self : DenseLayer.t) (optimizer : Optimizer) (g : rng) :
  (0 <= DenseLayer.n_inputs self)%Z ->
  (0 <= DenseLayer.n_units self)%Z ->
  Qeq_bool (sqrt (inject_Z (DenseLayer.n_inputs self))) 0 = false ->
  exists W0 b g',
    DenseLayer.initialize optimizer (self, g)
    = (Ok tt,
       (DenseLayer.mk (DenseLayer.activation self) (DenseLayer.layer_input self)
          (DenseLayer.initialized self) (DenseLayer.n_inputs self) (DenseLayer.n_units self)
          (Some W0) (Some [b]) (Some optimizer) (Some optimizer), g'))
    /\ length W0 = Z.to_nat (DenseLayer.n_inputs self)
    /\ Forall (fun r => length r = Z.to_nat (DenseLayer.n_units self)) W0
    /\ length b = Z.to_nat (DenseLayer.n_units self).
Proof.
  intros Hi Hu Hroot. unfold DenseLayer.initialize. rewrite Hroot.
  destruct (Z.ltb_spec (DenseLayer.n_inputs self) 0) as [Hi'|_]; [lia|].
  destruct (Z.ltb_spec (DenseLayer.n_units self) 0) as [Hu'|_]; [lia|].
  destruct (random_shape (Z.to_nat (DenseLayer.n_inputs self))
              (Z.to_nat (DenseLayer.n_units self)) g) as [Hl Hf].
  destruct (random.random (Z.to_nat (DenseLayer.n_inputs self))
              (Z.to_nat (DenseLayer.n_units self)) g) as [r1 g1].
  cbn [DenseLayer.n_units DenseLayer.set_W].
  destruct (random_shape 1 (Z.to_nat (DenseLayer.n_units self)) g1) as [Hl2 Hf2].
  destruct (random.random 1 (Z.to_nat (DenseLayer.n_units self)) g1) as [r2 g2].
  cbn [fst] in *.
  destruct r2 as [|b [|b' r2]]; try discriminate Hl2.
  do 3 eexists. split; [reflexivity|]. repeat split.
  - now rewrite length_map.
  - apply Forall_forall. intros r Hr. apply in_map_iff in Hr as (r0 & <- & Hr0).
    rewrite length_map. rewrite Forall_forall in Hf. now apply Hf.
  - rewrite length_map. now inversion Hf2.
Qed.

(** X7: an [add] that returns has appended exactly one layer, of the same
    kind and architecture as the one given, after the layers already there,
    which it does not touch; the rest of the network is unchanged.  A Dense
    layer arrives with both optimizers set to copies of the network's
    optimizer; a Dropout layer arrives as given, with no random draw. *)
Theorem add_appends_one_layer
    (self self' : MultilayerPerceptron.t) (layer : MultilayerPerceptron.Layer) (g g' : rng) :
  MultilayerPerceptron.add layer (self, g) = (Ok tt, (self', g')) ->
  exists layer',
    self' = MultilayerPerceptron.set_layers self (MultilayerPerceptron.layers self ++ [layer'])
    /\ MultilayerPerceptron.architecture layer' = MultilayerPerceptron.architecture layer
    /\ match layer' with
       | MultilayerPerceptron.Dense l' =>
           DenseLayer.W_opt l' = Some (MultilayerPerceptron.optimizer self)
           /\ DenseLayer.wb_opt l' = Some (MultilayerPerceptron.optimizer self)
       | MultilayerPerceptron.Dropout _ => layer' = layer /\ g' = g
       end.
Proof.
  unfold MultilayerPerceptron.add. destruct layer as [l|l].
  - destruct (initialize_outcome l (MultilayerPerceptron.optimizer self) g)
      as [[_ E]|[(_ & _ & E)|[(_ & _ & _ & E)|(_ & _ & _ & W0 & b & g1 & E)]]];
      rewrite E; try discriminate.
    intros H. injection H as <- <-.
    eexists. split; [reflexivity|]. repeat split.
  - intros H. injection H as <- <-. eexists. split; [reflexivity|]. repeat split.
Qed.

(** X8: an [add] that raises has appended nothing and drawn nothing: the
    network and the random generator are as before.  It happens only for a
    Dense layer: with [ValueError] when [n_inputs] is negative, with
    [ZeroDivisionError] when [math.sqrt(n_inputs)] is 0, and with
    [ValueError] when [n_units] is negative. *)
Theorem add_failure_leaves_network
    (self : MultilayerPerceptron.t) (layer : MultilayerPerceptron.Layer) (g : rng) (e : exn) :
  fst (MultilayerPerceptron.add layer (self, g)) = Raise e ->
  MultilayerPerceptron.add layer (self, g) = (Raise e, (self, g))
  /\ exists l,
       layer = MultilayerPerceptron.Dense l
       /\ (((DenseLayer.n_inputs l < 0)%Z /\ e = ValueError)
           \/ ((0 <= DenseLayer.n_inputs l)%Z
               /\ Qeq_bool (sqrt (inject_Z (DenseLayer.n_inputs l))) 0 = true
               /\ e = ZeroDivisionError)
           \/ ((0 <= DenseLayer.n_inputs l)%Z
               /\ Qeq_bool (sqrt (inject_Z (DenseLayer.n_inputs l))) 0 = false
               /\ (DenseLayer.n_units l < 0)%Z /\ e = ValueError)).
Proof.
  unfold MultilayerPerceptron.add. destruct layer as [l|l]; [|discriminate].
  destruct (initialize_outcome l (MultilayerPerceptron.optimizer self) g)
    as [[Hi E]|[(Hi & Hr & E)|[(Hi & Hr & Hu & E)|(_ & _ & _ & W0 & b & g1 & E)]]];
    rewrite E; cbn [fst]; intros H; try discriminate H; injection H as <-.
  - split; [reflexivity|]. exists l. split; [reflexivity|]. left. auto.
  - split; [reflexivity|]. exists l. split; [reflexivity|]. right; left. auto.
  - split; [reflexivity|]. exists l. split; [reflexivity|]. right; right. auto.
Qed.

End InitializeFacts.

(** X6 at a concrete layer: four inputs, three units. *)
Lemma initialize_shapes_witness :
  let self := DenseLayer.mk (C := Scenario.collaborators) Scenario.identity None false
                4%Z 3%Z None None None None in
  let self' := fst (snd (DenseLayer.initialize (C := Scenario.collaborators)
                           (1 # 100) (self, 0))) in
  exists W0 b,
    DenseLayer.W self' = Some W0 /\ length W0 = 4
    /\ DenseLayer.wb self' = Some [b] /\ length b = 3
    /\ DenseLayer.initialized self' = false.
Proof.
  intros self self'.
  destruct (@initialize_shapes Scenario.collaborators self (1 # 100) 0)
    as (W0 & b & g' & E & Hl & _ & Hb); [cbn; lia | cbn; lia | reflexivity |].
  exists W0, b.
  pose proof (f_equal (fun x => fst (snd x)) E : self' = _) as Es.
  rewrite Es. repeat split; assumption.
Defined.

(** X7 at a concrete call: a Dense layer with four inputs and three units
    added to a network that holds one Dropout layer. *)
Lemma add_appends_one_layer_witness :
  let net := Scenario.dropout_net [[0%Q]] [0%Z] in
  let layer := MultilayerPerceptron.Dense
                 (DenseLayer.mk (C := Scenario.collaborators) Scenario.identity None false
                    4%Z 3%Z None None None None) in
  let net' := fst (snd (MultilayerPerceptron.add layer (net, 0))) in
  exists layer',
    MultilayerPerceptron.layers net' = MultilayerPerceptron.layers net ++ [layer']
    /\ MultilayerPerceptron.architecture layer' = MultilayerPerceptron.architecture layer.
Proof.
  intros net layer net'.
  destruct (@add_appends_one_layer Scenario.collaborators net net' layer 0
              (snd (snd (MultilayerPerceptron.add layer (net, 0)))) eq_refl)
    as (layer' & E & Ha & _).
  exists layer'. rewrite E. split; [reflexivity|exact Ha].
Defined.

(** X8 at concrete calls: a Dense layer with no inputs, and one with a
    negative number of units. *)
Lemma add_failure_leaves_network_witness :
  let net := Scenario.dropout_net [[0%Q]] [0%Z] in
  let dense := fun n_inputs n_units =>
                 MultilayerPerceptron.Dense
                   (DenseLayer.mk (C := Scenario.collaborators) Scenario.identity None false
                      n_inputs n_units None None None None) in
  MultilayerPerceptron.add (dense 0%Z 3%Z) (net, 7) = (Raise ZeroDivisionError, (net, 7))
  /\ MultilayerPerceptron.add (dense 4%Z (-3)%Z) (net, 7) = (Raise ValueError, (net, 7)).
Proof.
  intros net dense. split.
  - apply (@add_failure_leaves_network Scenario.collaborators net (dense 0%Z 3%Z) 7
             ZeroDivisionError). reflexivity.
  - apply (@add_failure_leaves_network Scenario.collaborators net (dense 4%Z (-3)%Z) 7
             ValueError). reflexivity.
Defined.

(** X2 and X3 at the layer of the worked example. *)
Lemma forward_pass_shape_witness :
  exists z,
    DenseLayer.pre_activation (Scenario.dense_2_1 1) (np.Arr2 [[1; 2]; [3; 4]]%Q) = Ok z
    /\ length z = 2
    /\ Forall (fun r => length r = 1) z.
Proof.
  destruct (@forward_pass_shape Scenario.collaborators (Scenario.dense_2_1 1)
              [[1; 2]; [3; 4]]%Q true [[1]; [1]]%Q [0%Q] eq_refl eq_refl)
    as (z & E & Hl & Hf & _).
  - discriminate.
  - repeat constructor.
  - repeat constructor.
  - exists z. repeat split; assumption.
Defined.

Lemma forward_pass_rejects_wrong_width_witness :
  DenseLayer.forward_pass (np.Arr2 [[1; 2; 3]]%Q) true (Scenario.dense_2_1 1)
  = (Raise ValueError,
     DenseLayer.set_layer_input (Scenario.dense_2_1 1) (Some (np.Arr2 [[1; 2; 3]]%Q))).
Proof.
  apply (@forward_pass_rejects_wrong_width Scenario.collaborators (Scenario.dense_2_1 1)
           [[1; 2; 3]]%Q true [[1]; [1]]%Q eq_refl).
  constructor. cbn. lia.
Defined.

Lemma forward_pass_before_initialize_raises_witness :
  let self := DenseLayer.mk (C := Scenario.collaborators) Scenario.identity None false
                2%Z 1%Z None None None None in
  DenseLayer.forward_pass (np.Arr2 [[1; 2]]%Q) false self
  = (Raise TypeError, DenseLayer.set_layer_input self (Some (np.Arr2 [[1; 2]]%Q))).
Proof.
  intros self.
  apply (@forward_pass_before_initialize_raises Scenario.collaborators self). reflexivity.
Defined.

Lemma backward_pass_without_forward_raises_witness :
  DenseLayer.backward_pass (np.Arr2 [[1%Q]]) (Scenario.dense_2_1 1)
  = (Raise AttributeError, Scenario.dense_2_1 1).
Proof.
  apply (@backward_pass_without_forward_raises Scenario.collaborators). reflexivity.
Defined.

(** ** Dropout layers in training mode *)

Section DropoutTrainingFacts.
Context {C : Collaborators}.

Lemma uniform_like_rows_shape (X : np.matrix) :
  forall g, Forall2 (fun r u => length r = length u) X
                    (fst (random.uniform_like_rows X g)).
Proof.
  induction X as [|row X IH]; intros g; cbn; [constructor|].
  pose proof (draws_length (length row) g) as Hd.
  destruct (random.draws (length row) g) as [r g1]. specialize (IH g1).
  destruct (random.uniform_like_rows X g1) as [u g2]. cbn in *.
  constructor; [now symmetry|exact IH].
Qed.

Lemma Forall2_map_r (A B D : Type) (P : A -> D -> Prop) (f : B -> D) (l : list A) :
  forall l', Forall2 (fun a b => P a (f b)) l l' -> Forall2 P l (map f l').
Proof. induction 1; cbn; constructor; assumption. Qed.

Lemma Forall2_same_length_any (A B : Type) (P : B -> Prop) (l : list A) :
  forall l', length l = length l' -> (forall b, In b l' -> P b) ->
             Forall2 (fun _ b => P b) l l'.
Proof.
  induction l as [|a l IH]; intros [|b l'] H HP; try discriminate; constructor.
  - apply HP. now left.
  - apply IH; [now injection H|]. intros b' Hb'. apply HP. now right.
Qed.

(** The mask a training-mode forward pass draws for a 2-d input has the
    shape of the input. *)
Lemma dropout_mask_shape (p : Q) (X : np.matrix) (g : rng) :
  Forall2 (fun r r' : np.vector => length r = length r') X
    (map (map (fun x : Q => if Qle_bool x p then 0%Q else 1%Q))
         (fst (random.uniform_like_rows X g))).
Proof.
  apply Forall2_map_r. generalize (uniform_like_rows_shape X g).
  apply Forall2_impl. intros r r' H. now rewrite length_map.
Qed.

(** X9: in training mode a Dropout layer does not raise on a 2-d input: it
    caches a mask of the shape of the input whose entries are 0 or 1 and
    returns the input multiplied by it entry by entry, so every entry is
    either kept or zeroed; [p] is unchanged. *)
Theorem dropout_training_masks_the_input
    (self : DropoutLayer.t) (X : np.matrix) (g : rng) :
  exists mask g',
    DropoutLayer.forward_pass (np.Arr2 X) true (self, g)
    = (Ok (np.Arr2 (np.zip_with (np.zip_with Qmult) X mask)),
       (DropoutLayer.mk (DropoutLayer.p self) (Some (np.Arr2 mask)), g'))
    /\ Forall2 (Forall2 (fun _ c => c = 0%Q \/ c = 1%Q)) X mask.
Proof.
  unfold DropoutLayer.forward_pass, random.uniform_like.
  pose proof (uniform_like_rows_shape X g) as Hs.
  destruct (random.uniform_like_rows X g) as [u g1]. cbn [fst] in Hs.
  cbn [DropoutLayer.greater np.elementwise_nd].
  set (gt := fun x : Q => if Qle_bool x (DropoutLayer.p self) then 0%Q else 1%Q).
  assert (Hshape : Forall2 (fun r r' => length r = length r') X (map (map gt) u)).
  { apply Forall2_map_r. revert Hs. apply Forall2_impl. intros r r' H.
    now rewrite length_map. }
  exists (map (map gt) u), g1. split.
  - rewrite (elementwise_same_shape Qmult Hshape). reflexivity.
  - apply Forall2_map_r. revert Hs. apply Forall2_impl. intros r r' H.
    apply Forall2_same_length_any; [now rewrite length_map|].
    intros c Hc. apply in_map_iff in Hc as (x & <- & _). unfold gt.
    destruct (Qle_bool x (DropoutLayer.p self)); auto.
Qed.

(** X10: after a training-mode forward pass on [X], [backward_pass] on a
    gradient of the shape of [X] does not raise: it returns the gradient
    multiplied entry by entry by the mask that forward pass cached, and
    leaves the layer as it is. *)
Theorem dropout_backward_applies_the_forward_mask
    (self : DropoutLayer.t) (X grad : np.matrix) (g : rng) :
  Forall2 (fun r r' => length r = length r') grad X ->
  let self' := fst (snd (DropoutLayer.forward_pass (np.Arr2 X) true (self, g))) in
  exists mask,
    DropoutLayer._mask self' = Some (np.Arr2 mask)
    /\ DropoutLayer.backward_pass (np.Arr2 grad) self'
       = (Ok (np.Arr2 (np.zip_with (np.zip_with Qmult) grad mask)), self').
Proof.
  intros Hg self'.
  pose proof (dropout_mask_shape (DropoutLayer.p self) X g) as Hm.
  set (mask := map (map (fun x : Q => if Qle_bool x (DropoutLayer.p self) then 0%Q else 1%Q))
                   (fst (random.uniform_like_rows X g))) in *.
  assert (Es : self' = DropoutLayer.mk (DropoutLayer.p self) (Some (np.Arr2 mask))).
  { unfold self', mask, DropoutLayer.forward_pass, random.uniform_like.
    destruct (random.uniform_like_rows X g); reflexivity. }
  clearbody mask. exists mask. rewrite Es. split; [reflexivity|].
  transitivity (let? r := np.elementwise Qmult grad mask in Ok (np.Arr2 r),
                DropoutLayer.mk (DropoutLayer.p self) (Some (np.Arr2 mask)));
    [reflexivity|].
  assert (Hshape : Forall2 (fun r r' => length r = length r') grad mask).
  { clear - Hg Hm. revert mask Hm.
    induction Hg as [|r x grad X Hr _ IH]; intros mask Hm; inversion Hm; subst;
      constructor.
    - congruence.
    - now apply IH. }
  rewrite (elementwise_same_shape Qmult Hshape). reflexivity.
Qed.

(** X11: a Dropout layer that holds no mask and runs a forward pass in
    inference mode still holds none, and [backward_pass] on it raises
    [TypeError] and leaves it unchanged. *)
Theorem dropout_backward_after_inference_raises
    (self : DropoutLayer.t) (X acc_grad : np.ndarray) (g : rng) :
  DropoutLayer._mask self = None ->
  let self' := fst (snd (DropoutLayer.forward_pass X false (self, g))) in
  self' = self
  /\ DropoutLayer.backward_pass acc_grad self' = (Raise TypeError, self').
Proof.
  intros H self'. split; [reflexivity|].
  unfold self', DropoutLayer.backward_pass, DropoutLayer.forward_pass, bind, get, attr.
  cbn [fst snd]. now rewrite H.
Qed.

End DropoutTrainingFacts.

Lemma dropout_backward_applies_the_forward_mask_witness :
  let self' := fst (snd (DropoutLayer.forward_pass (C := Scenario.collaborators)
                           (np.Arr2 [[1; 2]]%Q) true (DropoutLayer.mk (1 # 2) None, 0))) in
  exists mask,
    DropoutLayer._mask self' = Some (np.Arr2 mask)
    /\ DropoutLayer.backward_pass (np.Arr2 [[5; 7]]%Q) self'
       = (Ok (np.Arr2 (np.zip_with (np.zip_with Qmult) [[5; 7]]%Q mask)), self').
Proof.
  apply (@dropout_backward_applies_the_forward_mask Scenario.collaborators
           (DropoutLayer.mk (1 # 2) None) [[1; 2]]%Q [[5; 7]]%Q 0).
  repeat constructor.
Defined.

Lemma dropout_backward_after_inference_raises_witness :
  DropoutLayer.backward_pass (np.Arr2 [[5%Q]])
    (fst (snd (DropoutLayer.forward_pass (C := Scenario.collaborators)
                 (np.Arr2 [[1%Q]]) false (DropoutLayer.mk (1 # 2) None, 0))))
  = (Raise TypeError, DropoutLayer.mk (1 # 2) None).
Proof.
  apply (@dropout_backward_after_inference_raises Scenario.collaborators
           (DropoutLayer.mk (1 # 2) None) (np.Arr2 [[1%Q]]) (np.Arr2 [[5%Q]]) 0 eq_refl).
Defined.

(** ** The passes through a stack of layers *)

Section StackFacts.
Context {C : Collaborators}.

(** X12: a forward pass through the layers [front ++ back] is the pass
    through [front] followed, on its output and with the random generator as
    it left it, by the pass through [back]; when a layer of [front] raises,
    no layer of [back] is touched. *)
Theorem forward_layers_app (front back : list MultilayerPerceptron.Layer) :
  forall (X : np.ndarray) (training : bool) (g : rng),
    MultilayerPerceptron.forward_layers X training (front ++ back) g
    = match MultilayerPerceptron.forward_layers X training front g with
      | (Ok out, (front', g')) =>
          let '(r, (back', g'')) :=
            MultilayerPerceptron.forward_layers out training back g' in
          (r, (front' ++ back', g''))
      | (Raise e, (front', g')) => (Raise e, (front' ++ back, g'))
      end.
Proof.
  induction front as [|layer front IH]; intros X training g.
  - cbn [app MultilayerPerceptron.forward_layers].
    destruct (MultilayerPerceptron.forward_layers X training back g) as [r [back' g']].
    reflexivity.
  - cbn [app MultilayerPerceptron.forward_layers].
    destruct (MultilayerPerceptron.forward_pass X training (layer, g))
      as [[out|e] [layer' g1]]; [|reflexivity].
    rewrite IH.
    destruct (MultilayerPerceptron.forward_layers out training front g1)
      as [[out2|e] [front' g2]]; [|reflexivity].
    destruct (MultilayerPerceptron.forward_layers out2 training back g2)
      as [r [back' g3]].
    reflexivity.
Qed.

(** X13: a backward pass through the layers [front ++ back] runs through
    [back] first, from its last layer to its first, and hands the gradient
    that comes out to the pass through [front]; when a layer of [back]
    raises, no layer of [front] is touched (none of its parameters is
    updated). *)
Theorem backward_layers_app (front back : list MultilayerPerceptron.Layer) :
  forall acc_grad : np.ndarray,
    MultilayerPerceptron.backward_layers acc_grad (front ++ back)
    = match MultilayerPerceptron.backward_layers acc_grad back with
      | (Ok grad, back') =>
          let (r, front') := MultilayerPerceptron.backward_layers grad front in
          (r, front' ++ back')
      | (Raise e, back') => (Raise e, front ++ back')
      end.
Proof.
  induction front as [|layer front IH]; intros acc_grad.
  - cbn [app MultilayerPerceptron.backward_layers].
    destruct (MultilayerPerceptron.backward_layers acc_grad back) as [[grad|e] back'];
      reflexivity.
  - cbn [app MultilayerPerceptron.backward_layers]. rewrite IH.
    destruct (MultilayerPerceptron.backward_layers acc_grad back) as [[grad|e] back'];
      [|reflexivity].
    destruct (MultilayerPerceptron.backward_layers grad front) as [[grad2|e] front'];
      [|reflexivity].
    destruct (MultilayerPerceptron.backward_pass grad2 layer) as [r layer'].
    reflexivity.
Qed.

End StackFacts.

(** ** What [fit] does before and outside its loop *)

Section FitEdgeFacts.
Context {C : Collaborators}.

(** X14: with a batch size of 0, [fit] raises [ZeroDivisionError] when it
    computes the batch count, before the loop: whatever the iteration count
    (also 0) and the data, nothing is shuffled, no layer is touched and no
    loss is recorded. *)
Theorem fit_batch_size_zero_raises
    (self : MultilayerPerceptron.t) (X : np.matrix) (y : list Z) (g : rng) :
  MultilayerPerceptron.batch_size self = 0%Z ->
  MultilayerPerceptron.fit X y (self, g) = (Raise ZeroDivisionError, (self, g)).
Proof.
  intros H. unfold MultilayerPerceptron.fit, bind, get. now rewrite H.
Qed.

(** X15: with a nonzero batch size and an iteration count of 0 or less,
    [fit] returns at once and changes nothing, whatever the data: the
    network is not trained and no loss is recorded. *)
Theorem fit_without_iterations_is_a_no_op
    (self : MultilayerPerceptron.t) (X : np.matrix) (y : list Z) (g : rng) :
  MultilayerPerceptron.batch_size self <> 0%Z ->
  (MultilayerPerceptron.n_iterations self <= 0)%Z ->
  MultilayerPerceptron.fit X y (self, g) = (Ok tt, (self, g)).
Proof.
  intros Hb Hn. unfold MultilayerPerceptron.fit, bind, get.
  destruct (Z.eqb_spec (MultilayerPerceptron.batch_size self) 0) as [E|_]; [contradiction|].
  replace (Z.to_nat (MultilayerPerceptron.n_iterations self)) with 0 by lia.
  reflexivity.
Qed.

(** X16: with at least one iteration and a training set that is not empty,
    a negative batch size gives a batch count below 1, and [fit] raises the
    [ValueError] of [np.array_split] in its first epoch: the data has been
    shuffled, the network is as it was. *)
Theorem fit_rejects_negative_batch_size
    (self : MultilayerPerceptron.t) (X : np.matrix) (y : list Z) (g : rng) :
  (MultilayerPerceptron.batch_size self < 0)%Z ->
  0 < length X ->
  (1 <= MultilayerPerceptron.n_iterations self)%Z ->
  length y = length X ->
  MultilayerPerceptron.fit X y (self, g)
  = (Raise ValueError, (self, snd (shuffle g (np.arange (length X))))).
Proof.
  intros Hb HX Hit Hy.
  unfold MultilayerPerceptron.fit, bind at 1, get.
  destruct (Z.eqb_spec (MultilayerPerceptron.batch_size self) 0) as [E|Hne]; [lia|].
  destruct (Z.to_nat (MultilayerPerceptron.n_iterations self)) as [|k] eqn:Ek; [lia|].
  cbn [MultilayerPerceptron.epochs]. unfold bind at 1.
  unfold MultilayerPerceptron.epoch, bind at 1.
  destruct (shuffle_data_ok X (categorical_to_binary y) self g) as (X_ & y_ & E & _).
  { rewrite categorical_to_binary_rows. exact Hy. }
  rewrite E. unfold bind at 1, lift.
  rewrite array_split_rejects; [reflexivity|].
  pose proof (Z.quot_opp_r (Z.of_nat (length X))
                (- MultilayerPerceptron.batch_size self) ltac:(lia)) as Hq.
  rewrite Z.opp_involutive in Hq. rewrite Hq.
  pose proof (Z.quot_pos (Z.of_nat (length X))
                (- MultilayerPerceptron.batch_size self) ltac:(lia) ltac:(lia)).
  lia.
Qed.

End FitEdgeFacts.

Lemma fit_batch_size_zero_raises_witness :
  let net := Scenario.network 0 0
               [MultilayerPerceptron.Dropout (DropoutLayer.mk (1 # 2) None)]
               (np.Arr0 0) (np.Arr0 0) in
  MultilayerPerceptron.fit [[1%Q]] [0%Z] (net, 3) = (Raise ZeroDivisionError, (net, 3)).
Proof.
  intros net.
  apply (@fit_batch_size_zero_raises Scenario.collaborators net [[1%Q]] [0%Z] 3 eq_refl).
Defined.

Lemma fit_without_iterations_is_a_no_op_witness :
  let net := Scenario.network (-2) 1
               [MultilayerPerceptron.Dropout (DropoutLayer.mk (1 # 2) None)]
               (np.Arr0 0) (np.Arr0 0) in
  MultilayerPerceptron.fit [[1%Q]] [0%Z] (net, 3) = (Ok tt, (net, 3)).
Proof.
  intros net.
  apply (@fit_without_iterations_is_a_no_op Scenario.collaborators net [[1%Q]] [0%Z] 3);
    cbn; lia.
Defined.

Lemma fit_rejects_negative_batch_size_witness :
  let net := Scenario.network 1 (-2)
               [MultilayerPerceptron.Dropout (DropoutLayer.mk (1 # 2) None)]
               (np.Arr0 0) (np.Arr0 0) in
  MultilayerPerceptron.fit [[1%Q]; [2%Q]; [3%Q]] [0; 0; 0]%Z (net, 3)
  = (Raise ValueError, (net, 4)).
Proof.
  intros net.
  apply (@fit_rejects_negative_batch_size Scenario.collaborators net
           [[1%Q]; [2%Q]; [3%Q]] [0; 0; 0]%Z 3); cbn; lia.
Defined.

(** ** What training leaves alone *)

Section ArchitectureFacts.
Context {C : Collaborators}.

Lemma dense_backward_pass_architecture (acc_grad : np.ndarray) (l : DenseLayer.t) :
  MultilayerPerceptron.architecture
    (MultilayerPerceptron.Dense (snd (DenseLayer.backward_pass acc_grad l)))
  = MultilayerPerceptron.architecture (MultilayerPerceptron.Dense l).
Proof.
  apply (@keeps_bind _ (fun l' => MultilayerPerceptron.architecture
                                    (MultilayerPerceptron.Dense l')
                                  = MultilayerPerceptron.architecture
                                      (MultilayerPerceptron.Dense l)));
    [apply keeps_get| |reflexivity].
  intros self.
  apply keeps_bind; [apply keeps_lift|intros layer_grad].
  apply keeps_bind; [apply keeps_lift|intros grad_w].
  apply keeps_bind.
  { intros s H. unfold DenseLayer.update_W, bind, get, attr, ret, raise.
    destruct (DenseLayer.W_opt s); [|exact H].
    destruct (DenseLayer.W s); [|exact H].
    destruct (update _ _ _). exact H. }
  intros _. apply keeps_bind.
  { intros s H. unfold DenseLayer.update_wb, bind, get, attr, ret, raise.
    destruct (DenseLayer.wb_opt s); [|exact H].
    destruct (DenseLayer.wb s); [|exact H].
    destruct (update _ _ _). exact H. }
  intros _. apply keeps_bind; [apply keeps_get|intros self2].
  apply keeps_bind; [|intros ?; apply keeps_lift].
  intros s H. unfold attr. destruct (DenseLayer.W self2); exact H.
Qed.

Lemma forward_pass_architecture (X : np.ndarray) (training : bool)
    (layer : MultilayerPerceptron.Layer) (g : rng) :
  MultilayerPerceptron.architecture
    (fst (snd (MultilayerPerceptron.forward_pass X training (layer, g))))
  = MultilayerPerceptron.architecture layer.
Proof.
  destruct layer as [l|l]; unfold MultilayerPerceptron.forward_pass.
  - rewrite dense_forward_pass_unfold. reflexivity.
  - unfold DropoutLayer.forward_pass. destruct training; [|reflexivity].
    destruct (random.uniform_like X g). reflexivity.
Qed.

Lemma backward_pass_architecture (acc_grad : np.ndarray)
    (layer : MultilayerPerceptron.Layer) :
  MultilayerPerceptron.architecture
    (snd (MultilayerPerceptron.backward_pass acc_grad layer))
  = MultilayerPerceptron.architecture layer.
Proof.
  destruct layer as [l|l]; unfold MultilayerPerceptron.backward_pass.
  - pose proof (dense_backward_pass_architecture acc_grad l) as H.
    destruct (DenseLayer.backward_pass acc_grad l) as [r l']. exact H.
  - unfold DropoutLayer.backward_pass, bind, get, attr, ret, raise, lift.
    destruct (DropoutLayer._mask l); reflexivity.
Qed.

Lemma forward_layers_architecture (ls : list MultilayerPerceptron.Layer) :
  forall (X : np.ndarray) (training : bool) (g : rng),
    map MultilayerPerceptron.architecture
        (fst (snd (MultilayerPerceptron.forward_layers X training ls g)))
    = map MultilayerPerceptron.architecture ls.
Proof.
  induction ls as [|layer rest IH]; intros X training g; [reflexivity|].
  cbn [MultilayerPerceptron.forward_layers].
  pose proof (forward_pass_architecture X training layer g) as H.
  destruct (MultilayerPerceptron.forward_pass X training (layer, g))
    as [[out|e] [layer' g']]; cbn [fst snd] in H.
  - specialize (IH out training g').
    destruct (MultilayerPerceptron.forward_layers out training rest g') as [r [rest' g'']].
    cbn [fst snd map] in *. now rewrite H, IH.
  - cbn [fst snd map]. now rewrite H.
Qed.

Lemma backward_layers_architecture (ls : list MultilayerPerceptron.Layer) :
  forall acc_grad : np.ndarray,
    map MultilayerPerceptron.architecture
        (snd (MultilayerPerceptron.backward_layers acc_grad ls))
    = map MultilayerPerceptron.architecture ls.
Proof.
  induction ls as [|layer rest IH]; intros acc_grad; [reflexivity|].
  cbn [MultilayerPerceptron.backward_layers]. specialize (IH acc_grad).
  destruct (MultilayerPerceptron.backward_layers acc_grad rest) as [[grad|e] rest'];
    cbn [snd] in IH.
  - pose proof (backward_pass_architecture grad layer) as H.
    destruct (MultilayerPerceptron.backward_pass grad layer) as [r layer'].
    cbn [snd map] in *. now rewrite H, IH.
  - cbn [snd map]. now rewrite IH.
Qed.

End ArchitectureFacts.

Section StableUnderRetraining.
Context {C : Collaborators}.
Variable P : MultilayerPerceptron.t -> Prop.
Hypothesis P_layers :
  forall self ls,
    map MultilayerPerceptron.architecture ls
    = map MultilayerPerceptron.architecture (MultilayerPerceptron.layers self) ->
    P self -> P (MultilayerPerceptron.set_layers self ls).

Lemma _forward_pass_stable (X : np.ndarray) (training : bool) :
  keeps (fun s => P (fst s)) (MultilayerPerceptron._forward_pass X training).
Proof.
  intros [self g] H. unfold MultilayerPerceptron._forward_pass.
  pose proof (forward_layers_architecture (MultilayerPerceptron.layers self) X training g)
    as Ha.
  destruct (MultilayerPerceptron.forward_layers X training _ g) as [r [ls g']].
  cbn [fst snd] in *. now apply P_layers.
Qed.

Lemma _backward_pass_stable (loss_grad : np.ndarray) :
  keeps (fun s => P (fst s)) (MultilayerPerceptron._backward_pass loss_grad).
Proof.
  intros [self g] H. unfold MultilayerPerceptron._backward_pass.
  pose proof (backward_layers_architecture (MultilayerPerceptron.layers self) loss_grad)
    as Ha.
  destruct (MultilayerPerceptron.backward_layers loss_grad _) as [r ls].
  cbn [fst snd] in *. now apply P_layers.
Qed.

Lemma shuffle_data_stable (X y : np.matrix) :
  keeps (fun s => P (fst s)) (MultilayerPerceptron.shuffle_data X y).
Proof.
  intros [self g] H. unfold MultilayerPerceptron.shuffle_data.
  destruct (shuffle g _) as [idx g']. exact H.
Qed.

Lemma batches_stable (X_ y_ : np.matrix) (splits : list (list nat)) :
  forall batch_t_error,
    keeps (fun s => P (fst s)) (MultilayerPerceptron.batches X_ y_ splits batch_t_error).
Proof.
  induction splits as [|idx rest IH]; intros acc; cbn [MultilayerPerceptron.batches].
  - apply keeps_ret.
  - apply keeps_bind; [apply keeps_lift|intros X_batch].
    apply keeps_bind; [apply keeps_lift|intros y_batch].
    apply keeps_bind; [apply _forward_pass_stable|intros y_pred].
    apply keeps_bind; [apply keeps_get|intros [self g]].
    apply keeps_bind; [apply keeps_lift|intros losses].
    apply keeps_bind; [apply keeps_lift|intros loss_grad].
    apply keeps_bind; [apply _backward_pass_stable|intros _].
    apply IH.
Qed.

End StableUnderRetraining.

Section FitFrame.
Context {C : Collaborators}.

Lemma configuration_stable (cfg : _) (self : MultilayerPerceptron.t)
    (ls : list MultilayerPerceptron.Layer) :
  map MultilayerPerceptron.architecture ls
  = map MultilayerPerceptron.architecture (MultilayerPerceptron.layers self) ->
  MultilayerPerceptron.configuration self = cfg ->
  MultilayerPerceptron.configuration (MultilayerPerceptron.set_layers self ls) = cfg.
Proof.
  intros Ha <-. unfold MultilayerPerceptron.configuration.
  cbn [MultilayerPerceptron.set_layers MultilayerPerceptron.layers
       MultilayerPerceptron.n_iterations MultilayerPerceptron.optimizer
       MultilayerPerceptron.cross_ent MultilayerPerceptron.batch_size
       MultilayerPerceptron.X_val MultilayerPerceptron.y_val].
  now rewrite Ha.
Qed.

(** X17: however [fit] ends, by returning or by raising at any point, the
    network has the layers it had, in the same order and of the same kinds,
    each Dense layer with its activation, sizes and [initialized] flag and
    each Dropout layer with its [p]; and the iteration count, batch size,
    optimizer, loss and validation data are those it had. *)
Theorem fit_keeps_configuration
    (self : MultilayerPerceptron.t) (X : np.matrix) (y : list Z) (g : rng) :
  MultilayerPerceptron.configuration (fst (snd (MultilayerPerceptron.fit X y (self, g))))
  = MultilayerPerceptron.configuration self.
Proof.
  set (cfg := MultilayerPerceptron.configuration self).
  set (Inv := fun s : MultilayerPerceptron.t * rng =>
                MultilayerPerceptron.configuration (fst s) = cfg).
  set (Pc := fun s : MultilayerPerceptron.t => MultilayerPerceptron.configuration s = cfg).
  assert (HPc : forall s ls,
             map MultilayerPerceptron.architecture ls
             = map MultilayerPerceptron.architecture (MultilayerPerceptron.layers s) ->
             Pc s -> Pc (MultilayerPerceptron.set_layers s ls)).
  { intros s ls Ha Hs. now apply configuration_stable. }
  assert (Happ : forall e, keeps Inv (MultilayerPerceptron.append_training e)
                           /\ keeps Inv (MultilayerPerceptron.append_validation e)).
  { intros e. split; intros [s gs] H; exact H. }
  assert (Hepoch : forall n nb Xs ys, keeps Inv (MultilayerPerceptron.epoch Xs ys n nb)).
  { intros n nb Xs ys. unfold MultilayerPerceptron.epoch.
    apply keeps_bind; [apply (@shuffle_data_stable _ Pc)|].
    intros [X_ y_].
    apply keeps_bind; [apply keeps_lift|intros splits].
    apply keeps_bind; [apply (@batches_stable _ Pc HPc)|intros err].
    apply keeps_bind; [apply Happ|intros _].
    apply keeps_bind; [apply keeps_get|intros [s gs]].
    destruct (np.any (MultilayerPerceptron.X_val s)); [|apply keeps_ret].
    apply keeps_bind; [apply (@_forward_pass_stable _ Pc HPc)|].
    intros y_val_p.
    apply keeps_bind; [apply keeps_lift|intros losses]. apply Happ. }
  apply (@keeps_bind _ Inv); [apply keeps_get| |reflexivity].
  intros [s gs]. destruct (MultilayerPerceptron.batch_size s =? 0)%Z; [apply keeps_raise|].
  induction (Z.to_nat (MultilayerPerceptron.n_iterations s)) as [|n IH];
    cbn [MultilayerPerceptron.epochs]; [apply keeps_ret|].
  apply keeps_bind; [apply Hepoch|intros _; exact IH].
Qed.

End FitFrame.

Section HistoryFacts.
Context {C : Collaborators}.

Lemma epoch_history (X y : np.matrix) (n_samples : nat) (n_batches : Z)
    (s : MultilayerPerceptron.t * rng) :
  exists es vs,
    MultilayerPerceptron.X_val (fst (snd (MultilayerPerceptron.epoch X y n_samples n_batches s)))
    = MultilayerPerceptron.X_val (fst s)
    /\ MultilayerPerceptron.training (MultilayerPerceptron.errors
         (fst (snd (MultilayerPerceptron.epoch X y n_samples n_batches s))))
       = MultilayerPerceptron.training (MultilayerPerceptron.errors (fst s)) ++ es
    /\ MultilayerPerceptron.validation (MultilayerPerceptron.errors
         (fst (snd (MultilayerPerceptron.epoch X y n_samples n_batches s))))
       = MultilayerPerceptron.validation (MultilayerPerceptron.errors (fst s)) ++ vs
    /\ length vs <= length es <= 1
    /\ (fst (MultilayerPerceptron.epoch X y n_samples n_batches s) = Ok tt ->
        length es = 1
        /\ length vs = if np.any (MultilayerPerceptron.X_val (fst s)) then 1 else 0).
Proof.
  set (P := fun s0 : MultilayerPerceptron.t =>
              MultilayerPerceptron.errors s0 = MultilayerPerceptron.errors (fst s)
              /\ MultilayerPerceptron.X_val s0 = MultilayerPerceptron.X_val (fst s)).
  assert (HP : forall s0 ls,
             map MultilayerPerceptron.architecture ls
             = map MultilayerPerceptron.architecture (MultilayerPerceptron.layers s0) ->
             P s0 -> P (MultilayerPerceptron.set_layers s0 ls)).
  { intros s0 ls _ H. exact H. }
  assert (Hnone : forall s' : MultilayerPerceptron.t * rng, P (fst s') ->
             MultilayerPerceptron.X_val (fst s') = MultilayerPerceptron.X_val (fst s)
             /\ MultilayerPerceptron.training (MultilayerPerceptron.errors (fst s'))
                = MultilayerPerceptron.training (MultilayerPerceptron.errors (fst s)) ++ []
             /\ MultilayerPerceptron.validation (MultilayerPerceptron.errors (fst s'))
                = MultilayerPerceptron.validation (MultilayerPerceptron.errors (fst s)) ++ []).
  { intros s' [He Hx]. rewrite !app_nil_r, He. auto. }
  destruct (MultilayerPerceptron.epoch X y n_samples n_batches s) as [r s'] eqn:E.
  cbn [fst snd]. revert E.
  unfold MultilayerPerceptron.epoch. unfold bind at 1.
  pose proof (@shuffle_data_stable _ P X y s (conj eq_refl eq_refl)) as H1.
  destruct (MultilayerPerceptron.shuffle_data X y s) as [[[X_ y_]|e] s1]; cbn [snd] in H1.
  2:{ intros E. injection E as <- <-. exists [], [].
      destruct (Hnone s1 H1) as (? & ? & ?).
      cbn [length]. repeat split; try assumption; try lia; congruence. }
  unfold bind at 1, lift at 1.
  destruct (np.array_split (np.arange n_samples) n_batches) as [splits|e].
  2:{ intros E. injection E as <- <-. exists [], [].
      destruct (Hnone s1 H1) as (? & ? & ?).
      cbn [length]. repeat split; try assumption; try lia; congruence. }
  unfold bind at 1.
  pose proof (@batches_stable _ P HP X_ y_ splits 0%Q s1 H1) as H2.
  destruct (MultilayerPerceptron.batches X_ y_ splits 0%Q s1) as [[err|e] s2];
    cbn [snd] in H2.
  2:{ intros E. injection E as <- <-. exists [], [].
      destruct (Hnone s2 H2) as (? & ? & ?).
      cbn [length]. repeat split; try assumption; try lia; congruence. }
  destruct s2 as [self2 g2]. destruct H2 as [He2 Hx2]. cbn [fst] in He2, Hx2.
  unfold bind at 1, MultilayerPerceptron.append_training, modify.
  unfold bind at 1, get.
  cbn [MultilayerPerceptron.X_val MultilayerPerceptron.set_errors].
  rewrite Hx2.
  set (e1 := (err / inject_Z n_batches)%Q).
  set (self3 := MultilayerPerceptron.set_errors self2 _).
  assert (H3 : MultilayerPerceptron.X_val self3 = MultilayerPerceptron.X_val (fst s)
               /\ MultilayerPerceptron.training (MultilayerPerceptron.errors self3)
                  = MultilayerPerceptron.training (MultilayerPerceptron.errors (fst s))
                    ++ [e1]
               /\ MultilayerPerceptron.validation (MultilayerPerceptron.errors self3)
                  = MultilayerPerceptron.validation (MultilayerPerceptron.errors (fst s))).
  { unfold self3.
    cbn [MultilayerPerceptron.X_val MultilayerPerceptron.set_errors
         MultilayerPerceptron.errors MultilayerPerceptron.training
         MultilayerPerceptron.validation].
    rewrite He2. auto. }
  destruct H3 as (Hx3 & Ht3 & Hv3).
  destruct (np.any (MultilayerPerceptron.X_val (fst s))) eqn:Hany.
  2:{ intros E. injection E as <- <-. exists [e1], []. cbn [fst length].
      rewrite app_nil_r. repeat split; try assumption; lia. }
  set (P3 := fun s0 : MultilayerPerceptron.t =>
               MultilayerPerceptron.errors s0 = MultilayerPerceptron.errors self3
               /\ MultilayerPerceptron.X_val s0 = MultilayerPerceptron.X_val self3).
  assert (HP3 : forall s0 ls,
             map MultilayerPerceptron.architecture ls
             = map MultilayerPerceptron.architecture (MultilayerPerceptron.layers s0) ->
             P3 s0 -> P3 (MultilayerPerceptron.set_layers s0 ls)).
  { intros s0 ls _ H. exact H. }
  unfold bind at 1.
  pose proof (@_forward_pass_stable _ P3 HP3 (MultilayerPerceptron.X_val (fst s)) true
                (self3, g2) (conj eq_refl eq_refl)) as H4.
  destruct (MultilayerPerceptron._forward_pass (MultilayerPerceptron.X_val (fst s)) true
              (self3, g2)) as [[y_val_p|e] [self4 g4]];
    cbn [fst snd] in H4; destruct H4 as [He4 Hx4].
  2:{ intros E. injection E as <- <-. exists [e1], []. cbn [fst length].
      rewrite He4, Hx4, app_nil_r.
      repeat split; try assumption; try lia; congruence. }
  unfold bind at 1, lift at 1.
  destruct (loss (MultilayerPerceptron.cross_ent self3) (MultilayerPerceptron.y_val self3)
              y_val_p) as [losses|e].
  2:{ intros E. injection E as <- <-. exists [e1], []. cbn [fst length].
      rewrite He4, Hx4, app_nil_r.
      repeat split; try assumption; try lia; congruence. }
  unfold MultilayerPerceptron.append_validation, modify. cbv beta iota.
  intros E. injection E as <- <-. exists [e1], [np.mean losses]. cbn [fst length].
  cbn [MultilayerPerceptron.X_val MultilayerPerceptron.set_errors
       MultilayerPerceptron.errors MultilayerPerceptron.training
       MultilayerPerceptron.validation].
  rewrite He4, Hx4, Hv3. repeat split; try assumption; lia.
Qed.

Lemma epochs_history (X y : np.matrix) (n_samples : nat) (n_batches : Z) (n : nat) :
  forall s : MultilayerPerceptron.t * rng,
  exists es vs,
    MultilayerPerceptron.training (MultilayerPerceptron.errors
      (fst (snd (MultilayerPerceptron.epochs n X y n_samples n_batches s))))
    = MultilayerPerceptron.training (MultilayerPerceptron.errors (fst s)) ++ es
    /\ MultilayerPerceptron.validation (MultilayerPerceptron.errors
         (fst (snd (MultilayerPerceptron.epochs n X y n_samples n_batches s))))
       = MultilayerPerceptron.validation (MultilayerPerceptron.errors (fst s)) ++ vs
    /\ length vs <= length es <= n
    /\ (fst (MultilayerPerceptron.epochs n X y n_samples n_batches s) = Ok tt ->
        length es = n
        /\ length vs = if np.any (MultilayerPerceptron.X_val (fst s)) then n else 0).
Proof.
  induction n as [|n IH]; intros s; cbn [MultilayerPerceptron.epochs].
  - exists [], []. cbn [ret fst snd length]. rewrite !app_nil_r.
    repeat split; try lia. now destruct (np.any _).
  - destruct (epoch_history X y n_samples n_batches s)
      as (es1 & vs1 & Hx & Ht & Hv & Hlen & Hok).
    unfold bind.
    destruct (MultilayerPerceptron.epoch X y n_samples n_batches s) as [[[]|e] s1];
      cbn [fst snd] in *.
    + destruct (IH s1) as (es2 & vs2 & Ht2 & Hv2 & Hlen2 & Hok2).
      destruct (Hok eq_refl) as [Hes1 Hvs1].
      exists (es1 ++ es2), (vs1 ++ vs2).
      rewrite Ht2, Hv2, Ht, Hv, <- !app_assoc, !length_app.
      repeat split; try lia.
      * destruct (Hok2 H) as [Hes2 _]. lia.
      * destruct (Hok2 H) as [_ Hvs2]. rewrite Hx in Hvs2.
        destruct (np.any (MultilayerPerceptron.X_val (fst s))); lia.
    + exists es1, vs1. repeat split; try assumption; try lia; congruence.
Qed.

(** X18: the error history is append-only and counts epochs.  However [fit]
    ends, the training and validation losses recorded before are still
    there, followed by at most [n_iterations] new training losses and no
    more new validation losses than training losses.  When [fit] returns
    normally it has appended exactly one training loss for each iteration,
    and exactly one validation loss for each iteration if the stored
    [X_val] has a nonzero entry, and none otherwise. *)
Theorem fit_history_is_append_only
    (self : MultilayerPerceptron.t) (X : np.matrix) (y : list Z) (g : rng) :
  let after := MultilayerPerceptron.fit X y (self, g) in
  let n := Z.to_nat (MultilayerPerceptron.n_iterations self) in
  exists es vs,
    MultilayerPerceptron.training (MultilayerPerceptron.errors (fst (snd after)))
    = MultilayerPerceptron.training (MultilayerPerceptron.errors self) ++ es
    /\ MultilayerPerceptron.validation (MultilayerPerceptron.errors (fst (snd after)))
       = MultilayerPerceptron.validation (MultilayerPerceptron.errors self) ++ vs
    /\ length vs <= length es <= n
    /\ (fst after = Ok tt ->
        length es = n
        /\ length vs = if np.any (MultilayerPerceptron.X_val self) then n else 0).
Proof.
  intros after n. unfold after, MultilayerPerceptron.fit, bind, get.
  destruct (MultilayerPerceptron.batch_size self =? 0)%Z.
  - exists [], []. cbn [raise fst snd length]. rewrite !app_nil_r.
    repeat split; try lia; congruence.
  - apply (epochs_history X (categorical_to_binary y) (length X)
             (Z.quot (Z.of_nat (length X)) (MultilayerPerceptron.batch_size self))
             n (self, g)).
Qed.

End HistoryFacts.

(** X18 at a concrete call: one epoch on the Dropout network with the
    validation inputs [[2],[4]] returns normally with one training and one
    validation loss. *)
Lemma fit_history_is_append_only_witness :
  let after := MultilayerPerceptron.fit [[1%Q]] [0%Z]
                 (Scenario.dropout_net [[2]; [4]]%Q [0; 0]%Z, 0) in
  fst after = Ok tt
  /\ length (MultilayerPerceptron.training (MultilayerPerceptron.errors (fst (snd after)))) = 1
  /\ length (MultilayerPerceptron.validation (MultilayerPerceptron.errors (fst (snd after))))
     = 1.
Proof.
  intros after.
  destruct (@fit_history_is_append_only Scenario.collaborators
              (Scenario.dropout_net [[2]; [4]]%Q [0; 0]%Z) [[1%Q]] [0%Z] 0)
    as (es & vs & Ht & Hv & _ & Hok).
  destruct (Hok eq_refl) as [Hes Hvs].
  split; [reflexivity|]. split.
  - etransitivity; [exact (f_equal (@length Q) Ht)|]. exact Hes.
  - etransitivity; [exact (f_equal (@length Q) Hv)|]. exact Hvs.
Defined.

(** ** Gradient boosting: what [fit] leaves behind *)

Section BoostingFacts.
Context {R : RegressionTrees}.

Lemma predict_fitted_trees (learning_rate : Q) (X : np.matrix) (y : np.vector)
    (trees : list RegressionTree) :
  forall y_pred : np.vector,
    GradientBoostingRegressor.predict_trees learning_rate X y_pred
      (snd (GradientBoostingRegressor.fit_trees learning_rate X y y_pred trees))
    = fst (GradientBoostingRegressor.fit_trees learning_rate X y y_pred trees).
Proof.
  induction trees as [|tree trees IH]; intros y_pred; [reflexivity|].
  cbn [GradientBoostingRegressor.fit_trees].
  set (fitted := tree_fit tree X (GradientBoostingRegressor.residuals y y_pred)).
  destruct (np.isub y_pred (map (Qmult learning_rate) (tree_predict fitted X)))
    as [y_pred'|e] eqn:E.
  - specialize (IH y_pred').
    destruct (GradientBoostingRegressor.fit_trees learning_rate X y y_pred' trees)
      as [r rest].
    cbn [fst snd GradientBoostingRegressor.predict_trees] in *. rewrite E. exact IH.
  - cbn [fst snd GradientBoostingRegressor.predict_trees]. rewrite E. reflexivity.
Qed.

(** X19: after [fit(X, y)] with one target for each row of [X], [predict]
    on the same [X] gives the running prediction the loop of [fit] ended
    with, and raises the same error when that loop raised: the trees [fit]
    leaves behind reproduce on the training inputs what they subtracted
    during training. *)
Theorem predict_reproduces_the_training_prediction
    (self : GradientBoostingRegressor.t) (X : np.matrix) (y : np.vector) :
  length y = length X ->
  GradientBoostingRegressor.predict (snd (GradientBoostingRegressor.fit X y self)) X
  = fst (GradientBoostingRegressor.fit_trees (GradientBoostingRegressor.learning_rate self)
           X y (np.zeros (length y)) (GradientBoostingRegressor.trees self)).
Proof.
  intros Hy. unfold GradientBoostingRegressor.predict, GradientBoostingRegressor.fit.
  pose proof (predict_fitted_trees (GradientBoostingRegressor.learning_rate self) X y
                (GradientBoostingRegressor.trees self) (np.zeros (length y))) as H.
  destruct (GradientBoostingRegressor.fit_trees (GradientBoostingRegressor.learning_rate self)
              X y (np.zeros (length y)) (GradientBoostingRegressor.trees self)) as [r trees'].
  cbn [fst snd GradientBoostingRegressor.set_trees GradientBoostingRegressor.trees
       GradientBoostingRegressor.learning_rate] in *.
  rewrite <- Hy. exact H.
Qed.

(** X20: however [fit] ends, the regressor holds as many trees as before,
    and its learning rate and other settings are unchanged; [fit] only
    replaces trees by fitted ones. *)
Theorem fit_keeps_the_number_of_trees
    (self : GradientBoostingRegressor.t) (X : np.matrix) (y : np.vector) :
  let self' := snd (GradientBoostingRegressor.fit X y self) in
  length (GradientBoostingRegressor.trees self') = length (GradientBoostingRegressor.trees self)
  /\ GradientBoostingRegressor.set_trees self' (GradientBoostingRegressor.trees self)
     = GradientBoostingRegressor.set_trees self (GradientBoostingRegressor.trees self).
Proof.
  intros self'. unfold self', GradientBoostingRegressor.fit.
  assert (H : forall trees y_pred,
             length (snd (GradientBoostingRegressor.fit_trees
                            (GradientBoostingRegressor.learning_rate self) X y y_pred trees))
             = length trees).
  { induction trees as [|tree trees IH]; intros y_pred; [reflexivity|].
    cbn [GradientBoostingRegressor.fit_trees].
    destruct (np.isub _ _) as [y_pred'|e]; [|reflexivity].
    specialize (IH y_pred').
    destruct (GradientBoostingRegressor.fit_trees _ X y y_pred' trees) as [r rest].
    cbn [snd length] in *. now rewrite IH. }
  specialize (H (GradientBoostingRegressor.trees self) (np.zeros (length y))).
  destruct (GradientBoostingRegressor.fit_trees _ X y _ _) as [r trees'].
  cbn [snd] in *. split; [exact H|reflexivity].
Qed.

End BoostingFacts.

Lemma predict_reproduces_the_training_prediction_witness :
  let self := GradientBoostingRegressor.mk (R := Scenario.mean_trees)
                2 (1 # 2) None 10 (1 # 10000) 10 false [0; 0]%Q in
  let X := [[1]; [2]]%Q in
  let y := [1; 3]%Q in
  exists prediction,
    GradientBoostingRegressor.predict (snd (GradientBoostingRegressor.fit X y self)) X
    = Ok prediction
    /\ map Qred prediction = [3 # 2; 3 # 2].
Proof.
  intros self X y.
  pose proof (@predict_reproduces_the_training_prediction Scenario.mean_trees self X y
                eq_refl) as H.
  eexists. split; [exact H|reflexivity].
Defined.

(** ** The labels [predict] returns *)

Lemma argmax_from_first_max (v : np.vector) :
  forall (pre : np.vector) (best : nat) (bv : Q),
    best < length pre ->
    nth best pre 0%Q = bv ->
    (forall j, j < length pre -> (nth j pre 0 <= bv)%Q) ->
    (forall j, j < best -> (nth j pre 0 < bv)%Q) ->
    let k := np.argmax_from (length pre) best bv v in
    k < length (pre ++ v)
    /\ (forall j, j < length (pre ++ v) -> (nth j (pre ++ v) 0 <= nth k (pre ++ v) 0)%Q)
    /\ (forall j, j < k -> (nth j (pre ++ v) 0 < nth k (pre ++ v) 0)%Q).
Proof.
  induction v as [|x v IH]; intros pre best bv Hb Hbv Hmax Hfirst; cbn [np.argmax_from].
  - rewrite app_nil_r. rewrite Hbv. auto.
  - replace (S (length pre)) with (length (pre ++ [x]))
      by (rewrite length_app; cbn; lia).
    replace (pre ++ x :: v) with ((pre ++ [x]) ++ v) by (now rewrite <- app_assoc).
    destruct (Qle_bool x bv) eqn:Hle.
    + apply Qle_bool_iff in Hle. apply IH.
      * rewrite length_app. cbn. lia.
      * now rewrite app_nth1.
      * intros j Hj. rewrite length_app in Hj. cbn in Hj.
        destruct (Nat.eq_dec j (length pre)) as [->|Hne].
        -- rewrite app_nth2, Nat.sub_diag by lia. exact Hle.
        -- rewrite app_nth1 by lia. apply Hmax. lia.
      * intros j Hj. rewrite app_nth1 by lia. now apply Hfirst.
    + assert (Hlt : (bv < x)%Q).
      { apply Qnot_le_lt. intros H. apply Qle_bool_iff in H. congruence. }
      assert (Hx : nth (length pre) (pre ++ [x]) 0%Q = x).
      { rewrite app_nth2, Nat.sub_diag by lia. reflexivity. }
      apply IH.
      * rewrite length_app. cbn. lia.
      * exact Hx.
      * intros j Hj. rewrite length_app in Hj. cbn in Hj.
        destruct (Nat.eq_dec j (length pre)) as [->|Hne].
        -- rewrite app_nth2, Nat.sub_diag by lia. apply Qle_refl.
        -- rewrite app_nth1 by lia. apply Qlt_le_weak.
           eapply Qle_lt_trans; [apply Hmax; lia|exact Hlt].
      * intros j Hj. rewrite app_nth1 by lia.
        eapply Qle_lt_trans; [apply Hmax; lia|exact Hlt].
Qed.

Lemma argmax_row_first_max (row : np.vector) (k : nat) :
  np.argmax_row row = Ok k ->
  k < length row
  /\ (forall j, j < length row -> (nth j row 0 <= nth k row 0)%Q)
  /\ (forall j, j < k -> (nth j row 0 < nth k row 0)%Q).
Proof.
  destruct row as [|x v]; [discriminate|]. cbn [np.argmax_row]. intros H.
  injection H as <-.
  apply (@argmax_from_first_max v [x] 0 x).
  - cbn. lia.
  - reflexivity.
  - intros j Hj. cbn in Hj. replace j with 0 by lia. apply Qle_refl.
  - intros j Hj. lia.
Qed.

Lemma sequence_Forall2 (A B : Type) (f : A -> result B) (P : A -> B -> Prop) (l : list A) :
  (forall a b, f a = Ok b -> P a b) ->
  forall l', sequence (map f l) = Ok l' -> Forall2 P l l'.
Proof.
  intros Hf. induction l as [|a l IH]; intros l' H; cbn in H.
  - injection H as <-. constructor.
  - destruct (f a) as [b|e] eqn:Ea; [|discriminate].
    cbn [rbind] in H. destruct (sequence (map f l)) as [bs|e]; [|discriminate].
    cbn [rbind] in H. injection H as <-. constructor; [now apply Hf|now apply IH].
Qed.

Section PredictFacts.
Context {C : Collaborators}.

(** X21: when [predict] returns, the inference-mode forward pass returned a
    2-d array, and there is one label for each of its rows: the position of
    the first largest entry of that row (no entry of the row is larger, and
    every entry before it is smaller). *)
Theorem predict_returns_first_maximum
    (self : MultilayerPerceptron.t) (X : np.matrix) (g : rng) (labels : list nat) :
  fst (MultilayerPerceptron.predict X (self, g)) = Ok labels ->
  exists output,
    fst (MultilayerPerceptron._forward_pass (np.Arr2 X) false (self, g))
    = Ok (np.Arr2 output)
    /\ Forall2 (fun row k =>
                  k < length row
                  /\ (forall j, j < length row -> (nth j row 0 <= nth k row 0)%Q)
                  /\ (forall j, j < k -> (nth j row 0 < nth k row 0)%Q))
               output labels.
Proof.
  unfold MultilayerPerceptron.predict, bind, lift.
  destruct (MultilayerPerceptron._forward_pass (np.Arr2 X) false (self, g))
    as [[[x|output]|e] s']; cbn [fst]; try discriminate.
  intros H. exists output. split; [reflexivity|].
  apply (sequence_Forall2 np.argmax_row); [|exact H].
  intros row k. apply argmax_row_first_max.
Qed.

End PredictFacts.

Lemma predict_returns_first_maximum_witness :
  let net := Scenario.network 1 1 [] (np.Arr0 0) (np.Arr0 0) in
  exists output,
    fst (MultilayerPerceptron._forward_pass (np.Arr2 [[1; 3; 3]; [2; 0; 1]]%Q) false (net, 0))
    = Ok (np.Arr2 output)
    /\ Forall2 (fun row k =>
                  k < length row
                  /\ (forall j, j < length row -> (nth j row 0 <= nth k row 0)%Q)
                  /\ (forall j, j < k -> (nth j row 0 < nth k row 0)%Q))
               output [1; 0].
Proof.
  intros net.
  apply (@predict_returns_first_maximum Scenario.collaborators net
           [[1; 3; 3]; [2; 0; 1]]%Q 0 [1; 0]).
  reflexivity.
Defined.

Section ForwardFrame.
Context {C : Collaborators}.

(** X22: [_forward_pass], in training mode or not and whether it returns or
    raises, changes nothing of the network but its layers, and in the layers
    no weight, no bias and no optimizer: only cached inputs and masks. *)
Theorem _forward_pass_updates_no_parameter
    (self : MultilayerPerceptron.t) (X : np.ndarray) (training : bool) (g : rng) :
  exists layers' g',
    snd (MultilayerPerceptron._forward_pass X training (self, g))
    = (MultilayerPerceptron.set_layers self layers', g')
    /\ map MultilayerPerceptron.parameters layers'
       = map MultilayerPerceptron.parameters (MultilayerPerceptron.layers self)
    /\ map MultilayerPerceptron.architecture layers'
       = map MultilayerPerceptron.architecture (MultilayerPerceptron.layers self).
Proof.
  unfold MultilayerPerceptron._forward_pass.
  pose proof (forward_layers_keeps_parameters (MultilayerPerceptron.layers self) X training g)
    as Hp.
  pose proof (forward_layers_architecture (MultilayerPerceptron.layers self) X training g)
    as Ha.
  destruct (MultilayerPerceptron.forward_layers X training (MultilayerPerceptron.layers self) g)
    as [r [ls g']].
  exists ls, g'. cbn [fst snd] in *. auto.
Qed.

End ForwardFrame.
